(** * libdfu: the DFU request codec, status decoder, diagnostic tables and
      flashing orchestrator of [dfu.c], embedded in Rocq.

    C [int]s are modelled as [Z]; [unsigned char] buffers as lists of [Z];
    C strings as [string]; a C pointer that may be [NULL] as an [option].
    The libusb transport, the file loader, the device enumerator and the
    download engine are collaborators of [dfu.c]: they appear as fields of a
    [world] record, and every call to them is recorded in a log. *)

From Stdlib Require Import ZArith List String Bool Lia.
Import ListNotations.
Open Scope string_scope.
Open Scope list_scope.
Open Scope Z_scope.

(** ** Constants of the headers [dfu.c] includes *)

Module Consts.

(** Modelled from the spec: [dfu.h] is not among the sources.  The state
    codes are those of the DFU class specification, in the order in which
    the eleven named states are listed. *)
Definition STATE_APP_IDLE : Z := 0.
Definition STATE_APP_DETACH : Z := 1.
Definition STATE_DFU_IDLE : Z := 2.
Definition STATE_DFU_DOWNLOAD_SYNC : Z := 3.
Definition STATE_DFU_DOWNLOAD_BUSY : Z := 4.
Definition STATE_DFU_DOWNLOAD_IDLE : Z := 5.
Definition STATE_DFU_MANIFEST_SYNC : Z := 6.
Definition STATE_DFU_MANIFEST : Z := 7.
Definition STATE_DFU_MANIFEST_WAIT_RESET : Z := 8.
Definition STATE_DFU_UPLOAD_IDLE : Z := 9.
Definition STATE_DFU_ERROR : Z := 10.

(** The same codes under the names of the [dfu_state] enumeration. *)
Definition DFU_STATE_appIDLE : Z := 0.
Definition DFU_STATE_appDETACH : Z := 1.
Definition DFU_STATE_dfuIDLE : Z := 2.
Definition DFU_STATE_dfuDNLOAD_IDLE : Z := 5.
Definition DFU_STATE_dfuUPLOAD_IDLE : Z := 9.
Definition DFU_STATE_dfuERROR : Z := 10.

(** Modelled from the spec: status codes run from 0 to 15 and 0 is "OK".
    The comments of [dfu_status_names] name the entries in the order of the
    codes: errUNKNOWN is entry 14 and errSTALLEDPKT, the last one, entry 15. *)
Definition DFU_STATUS_OK : Z := 0.
Definition DFU_STATUS_ERROR_UNKNOWN : Z := 14.
Definition DFU_STATUS_errSTALLEDPKT : Z := 15.

(** Modelled from the spec: the request codes of its wire-protocol table. *)
Definition DFU_DETACH : Z := 0.
Definition DFU_DNLOAD : Z := 1.
Definition DFU_UPLOAD : Z := 2.
Definition DFU_GETSTATUS : Z := 3.
Definition DFU_CLRSTATUS : Z := 4.
Definition DFU_GETSTATE : Z := 5.
Definition DFU_ABORT : Z := 6.

(** The request-type bits of [libusb.h]. *)
Definition LIBUSB_ENDPOINT_IN : Z := 128.
Definition LIBUSB_ENDPOINT_OUT : Z := 0.
Definition LIBUSB_REQUEST_TYPE_CLASS : Z := 32.
Definition LIBUSB_RECIPIENT_INTERFACE : Z := 1.

(** [errno.h] and [sysexits.h] values (Linux). *)
Definition EIO : Z := 5.
Definition EFAULT : Z := 14.
Definition ENODEV : Z := 19.
Definition EINVAL : Z := 22.
Definition EX_IOERR : Z := 74.

End Consts.
Import Consts.

(** ** Diagnostic tables *)

(** [dfu_state_to_string]: the [switch]; [None] is the [NULL] of the
    [default] branch. *)
Definition dfu_state_to_string (state : Z) : option string :=
  if state =? STATE_APP_IDLE then Some "appIDLE"
  else if state =? STATE_APP_DETACH then Some "appDETACH"
  else if state =? STATE_DFU_IDLE then Some "dfuIDLE"
  else if state =? STATE_DFU_DOWNLOAD_SYNC then Some "dfuDNLOAD-SYNC"
  else if state =? STATE_DFU_DOWNLOAD_BUSY then Some "dfuDNBUSY"
  else if state =? STATE_DFU_DOWNLOAD_IDLE then Some "dfuDNLOAD-IDLE"
  else if state =? STATE_DFU_MANIFEST_SYNC then Some "dfuMANIFEST-SYNC"
  else if state =? STATE_DFU_MANIFEST then Some "dfuMANIFEST"
  else if state =? STATE_DFU_MANIFEST_WAIT_RESET then Some "dfuMANIFEST-WAIT-RESET"
  else if state =? STATE_DFU_UPLOAD_IDLE then Some "dfuUPLOAD-IDLE"
  else if state =? STATE_DFU_ERROR then Some "dfuERROR"
  else None.

(** The codes that have a [case] label in [dfu_state_to_string]. *)
Definition named_states : list Z :=
  [ STATE_APP_IDLE; STATE_APP_DETACH; STATE_DFU_IDLE; STATE_DFU_DOWNLOAD_SYNC;
    STATE_DFU_DOWNLOAD_BUSY; STATE_DFU_DOWNLOAD_IDLE; STATE_DFU_MANIFEST_SYNC;
    STATE_DFU_MANIFEST; STATE_DFU_MANIFEST_WAIT_RESET; STATE_DFU_UPLOAD_IDLE;
    STATE_DFU_ERROR ].

Definition dfu_status_names : list string :=
  [ "No error condition is present";
    "File is not targeted for use by this device";
    "File is for this device but fails some vendor-specific test";
    "Device is unable to write memory";
    "Memory erase function failed";
    "Memory erase check failed";
    "Program memory function failed";
    "Programmed memory failed verification";
    "Cannot program memory due to received address that is out of range";
    "Received DFU_DNLOAD with wLength = 0, but device does not think that it has all data yet";
    "Device's firmware is corrupt. It cannot return to run-time (non-DFU) operations";
    "iString indicates a vendor specific error";
    "Device detected unexpected USB reset signalling";
    "Device detected unexpected power on reset";
    "Something went wrong, but the device does not know what it was";
    "Device stalled an unexpected request" ].

(** [a[i]] for a C array and an [int] index: [None] when the index lies
    outside the array (the access C leaves undefined). *)
Definition array_get {A : Type} (a : list A) (i : Z) : option A :=
  if i <? 0 then None else nth_error a (Z.to_nat i).

(** [dfu_status_to_string]: only the upper bound is tested before the table
    is indexed. *)
Definition dfu_status_to_string (status : Z) : option string :=
  if status >? DFU_STATUS_errSTALLEDPKT then Some "INVALID"
  else array_get dfu_status_names status.

(** ** Data model *)

(** The fields of [dfu_if] that [dfu.c] reads.  A list of [dfu_if] stands
    for the chain linked through [next]; [dev_handle] lives in the state. *)
Record dfu_if : Type := mk_dfu_if {
  vendor : Z;
  product : Z;
  intf : Z;
  altsetting : Z;
  bMaxPacketSize0 : Z;
  wTransferSize : Z;          (* func_dfu.wTransferSize *)
  quirks : Z
}.

Record dfu_status : Type := mk_dfu_status {
  bStatus : Z;
  bwPollTimeout : Z;
  bState : Z;
  iString : Z
}.

(** The two fields of [dfu_file] that [dfu_flash] reads. *)
Record dfu_file : Type := mk_dfu_file {
  idVendor : Z;
  idProduct : Z
}.

(** The setup packet of one [libusb_control_transfer]. *)
Record setup : Type := mk_setup {
  bmRequestType : Z;
  bRequest : Z;
  wValue : Z;
  wIndex : Z;
  wLength : Z
}.

(** What the program does to the outside, in the order it does it. *)
Inductive event : Type :=
| EvLibusbInit (r : Z)
| EvLoadFile (f : dfu_file)
| EvProbe (mv mp : Z) (found : nat)
| EvOpen (r : Z) (handle : bool)
| EvClaim (i r : Z)
| EvSetAlt (i alt r : Z)
| EvControl (rq : setup) (r : Z)
| EvUsleep (usec : Z)
| EvStderr (fmt : string) (args : list Z)
| EvErrx (eval : Z) (fmt : string) (args : list Z)
| EvDnload (xfer_size r : Z)
| EvClose
| EvLibusbExit.

(** The collaborators of [dfu.c].  [libusb_control_transfer n rq] is the
    answer (return value and data received) to the [n]-th control transfer
    of the session; as the host's requests are determined by the earlier
    answers, this covers every behaviour of a device. *)
Record world : Type := mk_world {
  libusb_init : Z;
  dfu_load_file : dfu_file;
  probe_devices : Z -> Z -> list dfu_if;     (* from match_vendor, match_product *)
  libusb_open : dfu_if -> Z * bool;          (* return value, handle is not NULL *)
  libusb_claim_interface : dfu_if -> Z;
  libusb_set_interface_alt_setting : dfu_if -> Z;
  libusb_control_transfer : nat -> setup -> Z * list Z;
  dfuload_do_dnload : dfu_if -> Z -> Z
}.

(** The globals of [dfu.c] that [dfu_flash] touches, [*finished], whether
    [dfu_root->dev_handle] is an open handle, and the log (newest first). *)
Record state : Type := mk_state {
  match_vendor : Z;
  match_product : Z;
  dfu_root : list dfu_if;
  handle_open : bool;
  finished : Z;
  transfers : nat;
  log : list event
}.

Definition trace (s : state) : list event := rev (log s).

(** The state a process starts [dfu_flash] in. *)
Definition boot (mv mp : Z) : state :=
  mk_state mv mp [] false 0 0%nat [].

(** ** A monad for state, process exit and loop fuel *)

Inductive outcome (A : Type) : Type :=
| Val (a : A)            (* the call returned [a] *)
| Exit (code : Z)        (* the process was terminated with [code] *)
| OutOfFuel.             (* the loop had not ended when the fuel ran out *)
Arguments Val {A} a.
Arguments Exit {A} code.
Arguments OutOfFuel {A}.

Definition M (A : Type) : Type := state -> outcome A * state.

Definition ret {A : Type} (a : A) : M A := fun s => (Val a, s).

Definition bind {A B : Type} (m : M A) (k : A -> M B) : M B :=
  fun s =>
    match m s with
    | (Val a, s') => k a s'
    | (Exit c, s') => (Exit c, s')
    | (OutOfFuel, s') => (OutOfFuel, s')
    end.

Declare Scope dfu_scope.
Delimit Scope dfu_scope with dfu.
Notation "x <- c1 ;; c2" := (bind c1 (fun x => c2))
  (at level 61, c1 at next level, right associativity) : dfu_scope.
Notation "' pat <- c1 ;; c2" := (bind c1 (fun x => match x with pat => c2 end))
  (at level 61, pat pattern, c1 at next level, right associativity) : dfu_scope.
Notation "c1 ;; c2" := (bind c1 (fun _ => c2))
  (at level 61, right associativity) : dfu_scope.
Open Scope dfu_scope.

Definition gets {A : Type} (f : state -> A) : M A := fun s => (Val (f s), s).
Definition modify (f : state -> state) : M unit := fun s => (Val tt, f s).
Definition when (b : bool) (m : M unit) : M unit := if b then m else ret tt.

Definition emit (e : event) : M unit :=
  modify (fun s => mk_state (match_vendor s) (match_product s) (dfu_root s)
                            (handle_open s) (finished s) (transfers s) (e :: log s)).
Definition set_match_vendor (v : Z) : M unit :=
  modify (fun s => mk_state v (match_product s) (dfu_root s)
                            (handle_open s) (finished s) (transfers s) (log s)).
Definition set_match_product (v : Z) : M unit :=
  modify (fun s => mk_state (match_vendor s) v (dfu_root s)
                            (handle_open s) (finished s) (transfers s) (log s)).
Definition set_dfu_root (l : list dfu_if) : M unit :=
  modify (fun s => mk_state (match_vendor s) (match_product s) l
                            (handle_open s) (finished s) (transfers s) (log s)).
Definition set_handle_open (b : bool) : M unit :=
  modify (fun s => mk_state (match_vendor s) (match_product s) (dfu_root s)
                            b (finished s) (transfers s) (log s)).
Definition set_finished (v : Z) : M unit :=
  modify (fun s => mk_state (match_vendor s) (match_product s) (dfu_root s)
                            (handle_open s) v (transfers s) (log s)).
Definition tick : M unit :=
  modify (fun s => mk_state (match_vendor s) (match_product s) (dfu_root s)
                            (handle_open s) (finished s) (S (transfers s)) (log s)).

(** [fprintf(stderr, fmt, args...)], [usleep] and [errx] of the C library:
    [errx] prints and terminates the process with status [eval]. *)
Definition fprintf_stderr (fmt : string) (args : list Z) : M unit :=
  emit (EvStderr fmt args).
Definition usleep (usec : Z) : M unit := emit (EvUsleep usec).
Definition errx {A : Type} (eval : Z) (fmt : string) (args : list Z) : M A :=
  fun s => match emit (EvErrx eval fmt args) s with (_, s') => (Exit eval, s') end.

(** C truth value of an [int]. *)
Definition truthy (z : Z) : bool := negb (z =? 0).

(** The message of the more-than-one-device branch of [dfu_flash]: the three
    adjacent literals of the source put together; it ends in a line feed. *)
Definition more_than_one_device : string :=
  "More than one DFU capable USB device found! Try `--list' and specify the serial number or disconnect all but one device
".

(** ** The code of [dfu.c] *)

Section Dfu.

(** [quirks.h] is not among the sources: the quirk bit and the substitute
    poll timeout are parameters. *)
Variable QUIRK_POLLTIMEOUT : Z.
Variable DEFAULT_POLLTIMEOUT : Z.

Variable w : world.

(** One control transfer: the world answers, the answer is logged. *)
Definition control_transfer (rq : setup) : M (Z * list Z) :=
  n <- gets transfers ;;
  let ans := libusb_control_transfer w n rq in
  tick ;;
  emit (EvControl rq (fst ans)) ;;
  ret ans.

Definition class_interface (direction : Z) : Z :=
  Z.lor (Z.lor direction LIBUSB_REQUEST_TYPE_CLASS) LIBUSB_RECIPIENT_INTERFACE.

Definition getstatus_setup (dif : dfu_if) : setup :=
  mk_setup (class_interface LIBUSB_ENDPOINT_IN) DFU_GETSTATUS 0 (intf dif) 6.
Definition clrstatus_setup (interface : Z) : setup :=
  mk_setup (class_interface LIBUSB_ENDPOINT_OUT) DFU_CLRSTATUS 0 interface 0.
Definition abort_setup (interface : Z) : setup :=
  mk_setup (class_interface LIBUSB_ENDPOINT_OUT) DFU_ABORT 0 interface 0.

(** The record [dfu_get_status] starts from. *)
Definition status_init : dfu_status :=
  mk_dfu_status DFU_STATUS_ERROR_UNKNOWN 0 STATE_DFU_ERROR 0.

(** [buffer[i]]; the buffer of [dfu_get_status] has six cells. *)
Definition byte_at (buffer : list Z) (i : nat) : Z := nth i buffer 0.

(** The body of [dfu_get_status] after the transfer: the record as a
    function of the transfer's result and of the buffer. *)
Definition status_of (dif : dfu_if) (result : Z) (buffer : list Z) : dfu_status :=
  if 6 =? result then
    mk_dfu_status
      (byte_at buffer 0)
      (if truthy (Z.land (quirks dif) QUIRK_POLLTIMEOUT) then DEFAULT_POLLTIMEOUT
       else Z.lor (Z.lor (Z.shiftl (Z.land 255 (byte_at buffer 3)) 16)
                         (Z.shiftl (Z.land 255 (byte_at buffer 2)) 8))
                  (Z.land 255 (byte_at buffer 1)))
      (byte_at buffer 4)
      (byte_at buffer 5)
  else status_init.

(** [dfu_get_status]: the return value and the record written to [*status]. *)
Definition dfu_get_status (dif : dfu_if) : M (Z * dfu_status) :=
  '(result, buffer) <- control_transfer (getstatus_setup dif) ;;
  ret (result, status_of dif result buffer).

Definition dfu_clear_status (interface : Z) : M Z :=
  '(result, _) <- control_transfer (clrstatus_setup interface) ;;
  ret result.

Definition dfu_abort (interface : Z) : M Z :=
  '(result, _) <- control_transfer (abort_setup interface) ;;
  ret result.

(** [unsigned int] multiplication, as in [usleep(bwPollTimeout * 1000)]. *)
Definition umul32 (a b : Z) : Z := (a * b) mod 2 ^ 32.

(** The loop of [dfu_flash] between the label [status_again] and the end of
    the [switch]: it yields [ret] and [status] as they are when the switch
    is left; every [goto status_again] costs one unit of fuel. *)
Fixpoint status_again (fuel : nat) (d : dfu_if) : M (Z * dfu_status) :=
  match fuel with
  | O => fun s => (OutOfFuel, s)
  | S fuel' =>
    '(r, status) <- dfu_get_status d ;;
    when (r <? 0) (fprintf_stderr "error get_status: %s" [r]) ;;
    usleep (umul32 (bwPollTimeout status) 1000) ;;
    if (bState status =? DFU_STATE_appIDLE) || (bState status =? DFU_STATE_appDETACH) then
      fprintf_stderr "Device still in Runtime Mode!" [] ;;
      ret (r, status)
    else if bState status =? DFU_STATE_dfuERROR then
      c <- dfu_clear_status (intf d) ;;
      when (c <? 0) (fprintf_stderr "error clear_status" []) ;;
      status_again fuel' d
    else if (bState status =? DFU_STATE_dfuDNLOAD_IDLE)
            || (bState status =? DFU_STATE_dfuUPLOAD_IDLE) then
      c <- dfu_abort (intf d) ;;
      when (c <? 0) (fprintf_stderr "can't send DFU_ABORT" []) ;;
      status_again fuel' d
    else ret (r, status)
  end.

(** The numeric value of a little-endian 16-bit descriptor field. *)
Definition libusb_le16_to_cpu (x : Z) : Z := x.

(** The code at the label [out]. *)
Definition out (r : Z) : M Z :=
  emit EvLibusbExit ;;
  set_finished (if truthy r then -1 else 1) ;;
  ret r.

(** [dfu_flash] from the first poll to the end, for the one device found. *)
Definition flash_device (fuel : nat) (d : dfu_if) : M Z :=
  '(r, status) <- status_again fuel d ;;
  (if negb (DFU_STATUS_OK =? bStatus status) then
     c <- dfu_clear_status (intf d) ;;
     when (c <? 0) (fprintf_stderr "USB communication error" []) ;;
     '(g, status') <- dfu_get_status d ;;
     when (g <? 0) (fprintf_stderr "USB communication error" []) ;;
     when (negb (DFU_STATUS_OK =? bStatus status'))
          (fprintf_stderr "Status is not OK: %d" [bStatus status']) ;;
     usleep (umul32 (bwPollTimeout status') 1000)
   else ret tt) ;;
  let transfer_size := 0 in
  let func_dfu_transfer_size := libusb_le16_to_cpu (wTransferSize d) in
  transfer_size <-
    (if truthy func_dfu_transfer_size then
       ret (if negb (truthy transfer_size) then func_dfu_transfer_size else transfer_size)
     else
       when (negb (truthy transfer_size))
            (fprintf_stderr "Transfer size must be specified" []) ;;
       ret transfer_size) ;;
  let transfer_size :=
    if transfer_size <? bMaxPacketSize0 d then bMaxPacketSize0 d else transfer_size in
  let dn := dfuload_do_dnload w d transfer_size in
  emit (EvDnload transfer_size dn) ;;
  let r := if dn <? 0 then EFAULT else r in
  emit EvClose ;;
  set_handle_open false ;;
  out r.

(** [libusb_open], [libusb_claim_interface] and
    [libusb_set_interface_alt_setting], each followed by its [errx]. *)
Definition open_device (d : dfu_if) : M unit :=
  let '(r, h) := libusb_open w d in
  emit (EvOpen r h) ;;
  set_handle_open h ;;
  (if truthy r || negb h then errx EX_IOERR "Cannot open device: %s" [r] else ret tt) ;;
  let r := libusb_claim_interface w d in
  emit (EvClaim (intf d) r) ;;
  (if r <? 0 then errx EX_IOERR "Cannot claim interface - %s" [r] else ret tt) ;;
  let r := libusb_set_interface_alt_setting w d in
  emit (EvSetAlt (intf d) (altsetting d) r) ;;
  (if r <? 0 then errx EX_IOERR "Cannot set alternate interface: %s" [r] else ret tt).

(** The test of lines 436-437: a declared id that is no wildcard and differs
    from the device's. *)
Definition id_mismatch (file : dfu_file) (d : dfu_if) : bool :=
  (negb (idVendor file =? 65535) && negb (idVendor file =? vendor d))
  || (negb (idProduct file =? 65535) && negb (idProduct file =? product d)).

Definition dfu_flash (fuel : nat) : M Z :=
  let r := libusb_init w in
  emit (EvLibusbInit r) ;;
  set_dfu_root [] ;;
  set_finished 0 ;;
  if truthy r then
    fprintf_stderr "unable to initialize libusb: %s" [r] ;;
    ret EIO
  else
    let file := dfu_load_file w in
    emit (EvLoadFile file) ;;
    mv <- gets match_vendor ;;
    when ((mv <? 0) && negb (idVendor file =? 65535))
         (set_match_vendor (idVendor file)) ;;
    mp <- gets match_product ;;
    when ((mp <? 0) && negb (idProduct file =? 65535))
         (set_match_product (idProduct file)) ;;
    mv <- gets match_vendor ;;
    mp <- gets match_product ;;
    let found := probe_devices w mv mp in
    emit (EvProbe mv mp (List.length found)) ;;
    set_dfu_root found ;;
    root <- gets dfu_root ;;
    match root with
    | [] => out ENODEV
    | _ :: _ :: _ =>
      fprintf_stderr more_than_one_device [] ;;
      out ENODEV
    | [d] =>
      if id_mismatch file d then
        fprintf_stderr "Error: File ID %04x:%04x does not match device (%04x:%04x)"
                       [idVendor file; idProduct file; vendor d; product d] ;;
        out EINVAL
      else
        open_device d ;;
        flash_device fuel d
    end.

End Dfu.

(** ** Vocabulary of the properties *)

(** How a caller reads the return value of a request: the header comments
    promise a value [< 0] on an error, and every caller tests [ret < 0]. *)
Definition reports_failure (r : Z) : bool := r <? 0.

(** The match criterion after lines 408-415: an unset criterion (negative)
    adopts the id the file declares, unless that id is the wildcard. *)
Definition adopted (criterion declared : Z) : Z :=
  if (criterion <? 0) && negb (declared =? 65535) then declared else criterion.

(** The match criteria [probe_devices] is called with. *)
Definition probed (w : world) (mv mp : Z) : list dfu_if :=
  probe_devices w (adopted mv (idVendor (dfu_load_file w)))
                  (adopted mp (idProduct (dfu_load_file w))).

(** The state [dfu_flash] is in when [probe_devices] has returned. *)
Definition probed_state (w : world) (mv mp : Z) : state :=
  let file := dfu_load_file w in
  let mv' := adopted mv (idVendor file) in
  let mp' := adopted mp (idProduct file) in
  mk_state mv' mp' (probed w mv mp) false 0 0%nat
           [EvProbe mv' mp' (List.length (probed w mv mp)); EvLoadFile file; EvLibusbInit 0].

(** The state after one control transfer with setup packet [rq]. *)
Definition sent (w : world) (rq : setup) (s : state) : state :=
  mk_state (match_vendor s) (match_product s) (dfu_root s) (handle_open s)
           (finished s) (S (transfers s))
           (EvControl rq (fst (libusb_control_transfer w (transfers s) rq)) :: log s).

(** The state after a log entry. *)
Definition logged (e : event) (s : state) : state :=
  mk_state (match_vendor s) (match_product s) (dfu_root s) (handle_open s)
           (finished s) (transfers s) (e :: log s).

(** The transfer size [dfu_flash] hands to the download engine: the
    advertised size, raised to [bMaxPacketSize0] when it is smaller. *)
Definition resolved_size (d : dfu_if) : Z :=
  let advertised := libusb_le16_to_cpu (wTransferSize d) in
  if advertised <? bMaxPacketSize0 d then bMaxPacketSize0 d else advertised.

(** The state [dfu_flash] is in when the device has been opened, its
    interface claimed and its alternate setting selected. *)
Definition ready_state (w : world) (mv mp : Z) (d : dfu_if) : state :=
  let file := dfu_load_file w in
  let mv' := adopted mv (idVendor file) in
  let mp' := adopted mp (idProduct file) in
  mk_state mv' mp' [d] true 0 0%nat
           [ EvSetAlt (intf d) (altsetting d) (libusb_set_interface_alt_setting w d);
             EvClaim (intf d) (libusb_claim_interface w d);
             EvOpen 0 true;
             EvProbe mv' mp' 1; EvLoadFile file; EvLibusbInit 0 ].

(** The state a GETSTATUS issued as the [n]-th transfer would observe. *)
Definition observed (Q D : Z) (w : world) (d : dfu_if) (n : nat) : Z :=
  let ans := libusb_control_transfer w n (getstatus_setup d) in
  bState (status_of Q D d (fst ans) (snd ans)).

(** The states on which the [switch] of [dfu_flash] jumps back. *)
Definition repolls (st : Z) : bool :=
  (st =? DFU_STATE_dfuERROR) || (st =? DFU_STATE_dfuDNLOAD_IDLE)
  || (st =? DFU_STATE_dfuUPLOAD_IDLE).

Definition is_clrstatus (e : event) : bool :=
  match e with
  | EvControl rq _ => bRequest rq =? DFU_CLRSTATUS
  | _ => false
  end.

(** Number of CLRSTATUS requests in a log. *)
Definition clrstatus_sent (l : list event) : nat :=
  List.length (filter is_clrstatus l).

Definition is_dnload (e : event) : bool :=
  match e with
  | EvDnload _ _ => true
  | _ => false
  end.

Definition is_control (e : event) : bool :=
  match e with
  | EvControl _ _ => true
  | _ => false
  end.

Definition is_open (e : event) : bool :=
  match e with
  | EvOpen _ _ => true
  | _ => false
  end.

(** ** Concrete worlds *)

Module Worlds.

(** An STM32-style bootloader interface. *)
Definition dev0 : dfu_if := mk_dfu_if 1155 57105 0 0 64 2048 0.

(** The same interface with a functional descriptor that leaves
    [wTransferSize] at zero. *)
Definition dev_nosize : dfu_if := mk_dfu_if 1155 57105 0 0 64 0 0.

(** A six-byte GETSTATUS answer. *)
Definition answer (status poll state : Z) : Z * list Z :=
  (6, [status; poll mod 256; (poll / 256) mod 256; (poll / 65536) mod 256; state; 0]).

(** A device that answers every GETSTATUS with the same status and state,
    and accepts every other request. *)
Definition steady (status state : Z) (n : nat) (rq : setup) : Z * list Z :=
  if bRequest rq =? DFU_GETSTATUS then answer status 0 state else (0, []).

(** A device in dfuERROR for its first [k] polls and in dfuIDLE afterwards;
    polls and CLRSTATUS requests alternate, so poll [i] is transfer [2 i]. *)
Definition recovering (k : nat) (n : nat) (rq : setup) : Z * list Z :=
  if bRequest rq =? DFU_GETSTATUS then
    if (n <? 2 * k)%nat then answer DFU_STATUS_ERROR_UNKNOWN 0 DFU_STATE_dfuERROR
    else answer DFU_STATUS_OK 0 DFU_STATE_dfuIDLE
  else (0, []).

(** One device found, everything succeeds, the device behaves as [ctrl]. *)
Definition plugged (d : dfu_if) (ctrl : nat -> setup -> Z * list Z) : world :=
  mk_world 0 (mk_dfu_file 65535 65535) (fun _ _ => [d])
           (fun _ => (0, true)) (fun _ => 0) (fun _ => 0) ctrl (fun _ _ => 0).

(** As [plugged], with the enumerator finding the devices [found] for a
    firmware file that declares the ids [fv:fp]. *)
Definition enumerated (fv fp : Z) (found : list dfu_if) : world :=
  mk_world 0 (mk_dfu_file fv fp) (fun _ _ => found)
           (fun _ => (0, true)) (fun _ => 0) (fun _ => 0)
           (steady DFU_STATUS_OK DFU_STATE_dfuIDLE) (fun _ _ => 0).

(** As [plugged], but the interface cannot be claimed (LIBUSB_ERROR_BUSY). *)
Definition busy (d : dfu_if) : world :=
  mk_world 0 (mk_dfu_file 65535 65535) (fun _ _ => [d])
           (fun _ => (0, true)) (fun _ => -6) (fun _ => 0)
           (steady DFU_STATUS_OK DFU_STATE_dfuIDLE) (fun _ _ => 0).

(** A device that has not left run-time mode: appIDLE at every poll. *)
Definition runtime : world := plugged dev0 (steady DFU_STATUS_OK DFU_STATE_appIDLE).

(** A device in dfuIDLE whose descriptor gives no transfer size. *)
Definition sizeless : world :=
  plugged dev_nosize (steady DFU_STATUS_OK DFU_STATE_dfuIDLE).

(** A permanently faulted device: dfuERROR at every poll. *)
Definition faulted : world :=
  plugged dev0 (steady DFU_STATUS_ERROR_UNKNOWN DFU_STATE_dfuERROR).

(** As [plugged], with a device that answers GETSTATUS with three bytes. *)
Definition short_read (n : nat) (rq : setup) : Z * list Z :=
  if bRequest rq =? DFU_GETSTATUS then (3, [0; 0; 0]) else (0, []).

End Worlds.

(** ** The other requests of [dfu.c] *)

Section Codec.

Variable w : world.

(** The [unsigned short] parameters of the request functions are taken at
    the values they have in the callee. *)
Definition detach_setup (interface timeout : Z) : setup :=
  mk_setup (class_interface LIBUSB_ENDPOINT_OUT) DFU_DETACH timeout interface 0.
Definition upload_setup (interface length transaction : Z) : setup :=
  mk_setup (class_interface LIBUSB_ENDPOINT_IN) DFU_UPLOAD transaction interface length.
Definition getstate_setup (interface : Z) : setup :=
  mk_setup (class_interface LIBUSB_ENDPOINT_IN) DFU_GETSTATE 0 interface 1.

Definition dfu_detach (interface timeout : Z) : M Z :=
  '(result, _) <- control_transfer w (detach_setup interface timeout) ;;
  ret result.

(** [dfu_upload]: the return value and the bytes received in [data]. *)
Definition dfu_upload (interface length transaction : Z) : M (Z * list Z) :=
  '(status, data) <- control_transfer w (upload_setup interface length transaction) ;;
  ret (status, data).

Definition dfu_get_state (interface : Z) : M Z :=
  '(result, buffer) <- control_transfer w (getstate_setup interface) ;;
  if result <? 1 then ret (-1) else ret (byte_at buffer 0).

End Codec.

Section AbortToIdle.

Variables QUIRK_POLLTIMEOUT DEFAULT_POLLTIMEOUT : Z.
Variable w : world.

(** [portable.h] is not among the sources: [milli_sleep] is a parameter. *)
Variable milli_sleep : Z -> M unit.

(** [dfu_abort_to_idle]; the [exit(1)] after each [errx] is never reached. *)
Definition dfu_abort_to_idle (dif : dfu_if) : M Z :=
  r <- dfu_abort w (intf dif) ;;
  (if r <? 0 then errx EX_IOERR "Error sending dfu abort request" [] else ret tt) ;;
  '(r, dst) <- dfu_get_status QUIRK_POLLTIMEOUT DEFAULT_POLLTIMEOUT w dif ;;
  (if r <? 0 then errx EX_IOERR "Error during abort get_status" [] else ret tt) ;;
  (if negb (bState dst =? DFU_STATE_dfuIDLE)
   then errx EX_IOERR "Failed to enter idle state on abort" [] else ret tt) ;;
  milli_sleep (bwPollTimeout dst) ;;
  ret r.

End AbortToIdle.

(** ** [dfu_flash_filename] *)

(** What [dfu_flash_filename] does to the descriptor table. *)
Inductive fs_event : Type :=
| FsOpen (filename : string) (fd : Z)
| FsClose (fd : Z).

(** [dfu_flash_filename]: [open_rdonly] is [open(filename, O_RDONLY)]; the
    result carries the descriptor events next to the outcome and the state.
    [close] is reached only when [dfu_flash] returns. *)
Definition dfu_flash_filename (Q D : Z) (w : world) (open_rdonly : string -> Z)
  (filename : string) (fuel : nat) (s : state) : outcome Z * state * list fs_event :=
  let err := ENODEV in
  let fd := open_rdonly filename in
  let run := if fd >? -1 then dfu_flash Q D w fuel s else (Val err, s) in
  match run with
  | (Val err, s') => (Val err, s', [FsOpen filename fd; FsClose fd])
  | (o, s') => (o, s', [FsOpen filename fd])
  end.

(** ** Vocabulary of the further properties *)

(** The state after the code at the label [out]. *)
Definition exited (r : Z) (s : state) : state :=
  mk_state (match_vendor s) (match_product s) (dfu_root s) (handle_open s)
           (if truthy r then -1 else 1) (transfers s) (EvLibusbExit :: log s).

(** The state after [libusb_close] and the reset of [dev_handle]. *)
Definition released (s : state) : state :=
  mk_state (match_vendor s) (match_product s) (dfu_root s) false
           (finished s) (transfers s) (EvClose :: log s).

(** The state after [libusb_open]. *)
Definition opened (w : world) (d : dfu_if) (s : state) : state :=
  mk_state (match_vendor s) (match_product s) (dfu_root s) (snd (libusb_open w d))
           (finished s) (transfers s)
           (EvOpen (fst (libusb_open w d)) (snd (libusb_open w d)) :: log s).

(** The state after one GETSTATUS of the poll loop, its message and its
    sleep. *)
Definition polled (Q D : Z) (w : world) (d : dfu_if) (s : state) : state :=
  let ans := libusb_control_transfer w (transfers s) (getstatus_setup d) in
  logged (EvUsleep (umul32 (bwPollTimeout (status_of Q D d (fst ans) (snd ans))) 1000))
         (if fst ans <? 0
          then logged (EvStderr "error get_status: %s" [fst ans])
                      (sent w (getstatus_setup d) s)
          else sent w (getstatus_setup d) s).

(** The state after a request without data (CLRSTATUS, ABORT) and the
    message printed when it fails. *)
Definition requested (w : world) (rq : setup) (msg : string) (s : state) : state :=
  if fst (libusb_control_transfer w (transfers s) rq) <? 0
  then logged (EvStderr msg []) (sent w rq s)
  else sent w rq s.

(** The state after lines 499-510, entered with the status [st]. *)
Definition recovered (Q D : Z) (w : world) (d : dfu_if) (st : dfu_status) (s : state) : state :=
  if negb (DFU_STATUS_OK =? bStatus st) then
    let s1 := requested w (clrstatus_setup (intf d)) "USB communication error" s in
    let ans := libusb_control_transfer w (transfers s1) (getstatus_setup d) in
    let st' := status_of Q D d (fst ans) (snd ans) in
    let s2 := sent w (getstatus_setup d) s1 in
    let s3 := if fst ans <? 0 then logged (EvStderr "USB communication error" []) s2 else s2 in
    let s4 := if negb (DFU_STATUS_OK =? bStatus st')
              then logged (EvStderr "Status is not OK: %d" [bStatus st']) s3 else s3 in
    logged (EvUsleep (umul32 (bwPollTimeout st') 1000)) s4
  else s.

(** The state in which [dfu_flash] returns [r] after the download. *)
Definition delivered (w : world) (d : dfu_if) (r : Z) (s : state) : state :=
  let s1 := if truthy (libusb_le16_to_cpu (wTransferSize d)) then s
            else logged (EvStderr "Transfer size must be specified" []) s in
  exited r
    (released
       (logged (EvDnload (resolved_size d) (dfuload_do_dnload w d (resolved_size d))) s1)).

Definition is_abort (e : event) : bool :=
  match e with
  | EvControl rq _ => bRequest rq =? DFU_ABORT
  | _ => false
  end.

(** Number of ABORT requests in a log. *)
Definition abort_sent (l : list event) : nat :=
  List.length (filter is_abort l).

(** Among [k] successive polls, the first being transfer [n] and each
    followed by one request, the number that observe a state in [p]. *)
Fixpoint observations (p : Z -> bool) (Q D : Z) (w : world) (d : dfu_if)
  (n k : nat) : nat :=
  match k with
  | O => O
  | S k' =>
    ((if p (observed Q D w d n) then 1 else 0)
     + observations p Q D w d (S (S n)) k')%nat
  end.

Definition is_error_state (st : Z) : bool := st =? DFU_STATE_dfuERROR.
Definition is_stale_state (st : Z) : bool :=
  (st =? DFU_STATE_dfuDNLOAD_IDLE) || (st =? DFU_STATE_dfuUPLOAD_IDLE).

(** Pacing of a log read from its newest entry: [slept] tells whether a
    [usleep] lies between the entry at the head and the next entry that is
    no message.  A GETSTATUS must find [slept] set. *)
Fixpoint paced_from (slept : bool) (l : list event) : bool :=
  match l with
  | [] => true
  | EvUsleep _ :: l' => paced_from true l'
  | EvStderr _ _ :: l' => paced_from slept l'
  | EvControl rq _ :: l' =>
    (if bRequest rq =? DFU_GETSTATUS then slept else true) && paced_from false l'
  | _ :: l' => paced_from false l'
  end.

(** Every GETSTATUS of the log is followed by a [usleep] before anything
    else than a message happens. *)
Definition paced (l : list event) : bool := paced_from false l.

(** The values [dfu_flash] can return. *)
Definition flash_results : list Z := [EIO; ENODEV; EINVAL; EFAULT; 6].

(** A [milli_sleep] that waits through [usleep]. *)
Definition milli_usleep (msec : Z) : M unit := usleep (msec * 1000).

(** The six bytes of a GETSTATUS answer that carries the record [st]:
    status, poll timeout in three bytes with the low one first, state, string
    index. *)
Definition status_bytes (st : dfu_status) : list Z :=
  [ bStatus st;
    bwPollTimeout st mod 256; (bwPollTimeout st / 256) mod 256; bwPollTimeout st / 65536;
    bState st; iString st ].

(** A device found in dfuERROR, then, once cleared, in dfuDNLOAD-IDLE, and
    in dfuIDLE after the ABORT. *)
Definition relapsing (n : nat) (rq : setup) : Z * list Z :=
  if bRequest rq =? DFU_GETSTATUS then
    if (n <? 2)%nat then Worlds.answer DFU_STATUS_ERROR_UNKNOWN 0 DFU_STATE_dfuERROR
    else if (n <? 4)%nat then Worlds.answer DFU_STATUS_OK 0 DFU_STATE_dfuDNLOAD_IDLE
    else Worlds.answer DFU_STATUS_OK 0 DFU_STATE_dfuIDLE
  else (0, []).

(** * Properties *)

(** ** Diagnostic tables *)

(** C8 (as amended): [dfu_status_to_string] applied to status code 0 returns
    exactly "No error condition is present", the first entry of
    [dfu_status_names], and [dfu_state_to_string] applied to the dfu-idle
    state code returns exactly the label "dfuIDLE". *)
Theorem status_ok_and_idle_labels :
  dfu_status_to_string DFU_STATUS_OK = Some "No error condition is present" /\
  dfu_state_to_string STATE_DFU_IDLE = Some "dfuIDLE".
Proof. split; reflexivity. Qed.

(** C8 as the spec words it fails: the sentence returned for status code 0
    is not "no error condition present". *)
Lemma status_ok_sentence_differs :
  dfu_status_to_string 0 <> Some "no error condition present".
Proof. cbv. intro H. inversion H. Qed.

Lemma named_states_range (state : Z) :
  In state named_states <-> 0 <= state <= 10.
Proof.
  unfold named_states; cbv [In]. unfold STATE_APP_IDLE, STATE_APP_DETACH,
    STATE_DFU_IDLE, STATE_DFU_DOWNLOAD_SYNC, STATE_DFU_DOWNLOAD_BUSY,
    STATE_DFU_DOWNLOAD_IDLE, STATE_DFU_MANIFEST_SYNC, STATE_DFU_MANIFEST,
    STATE_DFU_MANIFEST_WAIT_RESET, STATE_DFU_UPLOAD_IDLE, STATE_DFU_ERROR.
  lia.
Qed.

Lemma dfu_state_to_string_defined (state : Z) :
  dfu_state_to_string state <> None <-> 0 <= state <= 10.
Proof.
  unfold dfu_state_to_string.
  repeat match goal with
         | |- context [?a =? ?b] => destruct (Z.eqb_spec a b) as [->|]
         end;
    try (split; [intros _; cbv; split; discriminate | intros _; discriminate]).
  unfold STATE_APP_IDLE, STATE_APP_DETACH,
    STATE_DFU_IDLE, STATE_DFU_DOWNLOAD_SYNC, STATE_DFU_DOWNLOAD_BUSY,
    STATE_DFU_DOWNLOAD_IDLE, STATE_DFU_MANIFEST_SYNC, STATE_DFU_MANIFEST,
    STATE_DFU_MANIFEST_WAIT_RESET, STATE_DFU_UPLOAD_IDLE, STATE_DFU_ERROR in *.
  split; [intros H; now elim H | lia].
Qed.

Lemma array_get_in_range {A : Type} (a : list A) (i : Z) :
  0 <= i < Z.of_nat (List.length a) -> exists x, array_get a i = Some x.
Proof.
  intros Hi. unfold array_get.
  destruct (Z.ltb_spec i 0) as [|_]; [lia|].
  destruct (nth_error a (Z.to_nat i)) as [x|] eqn:E; [now exists x|].
  apply nth_error_None in E. lia.
Qed.

(** C9: [dfu_state_to_string] returns a label for exactly the eleven named
    states (eleven distinct codes, each with its own label) and [NULL] for
    every other code; [dfu_status_to_string] returns an entry of the 16-string
    table for every code from 0 to 15 and "INVALID" for every code above 15. *)
Theorem diagnostic_tables_domain :
  (forall state, dfu_state_to_string state <> None <-> In state named_states) /\
  (forall state, ~ In state named_states -> dfu_state_to_string state = None) /\
  List.length named_states = 11%nat /\ NoDup named_states /\
  map dfu_state_to_string named_states =
    map Some [ "appIDLE"; "appDETACH"; "dfuIDLE"; "dfuDNLOAD-SYNC"; "dfuDNBUSY";
               "dfuDNLOAD-IDLE"; "dfuMANIFEST-SYNC"; "dfuMANIFEST";
               "dfuMANIFEST-WAIT-RESET"; "dfuUPLOAD-IDLE"; "dfuERROR" ] /\
  List.length dfu_status_names = 16%nat /\
  (forall status, 0 <= status <= 15 ->
     exists s, dfu_status_to_string status = Some s /\
               nth_error dfu_status_names (Z.to_nat status) = Some s) /\
  (forall status, status > 15 -> dfu_status_to_string status = Some "INVALID").
Proof.
  split; [|split; [|split; [|split; [|split; [|split; [|split]]]]]].
  - intros state. rewrite named_states_range. apply dfu_state_to_string_defined.
  - intros state Hn. rewrite named_states_range, <- dfu_state_to_string_defined in Hn.
    destruct (dfu_state_to_string state); [exfalso; apply Hn; discriminate | reflexivity].
  - reflexivity.
  - unfold named_states. repeat constructor; cbv [In]; cbv; intuition discriminate.
  - reflexivity.
  - reflexivity.
  - intros status Hs. unfold dfu_status_to_string, DFU_STATUS_errSTALLEDPKT.
    destruct (Z.gtb_spec status 15) as [|_]; [lia|].
    destruct (array_get_in_range dfu_status_names status) as [s Hget].
    + change (Z.of_nat (List.length dfu_status_names)) with 16. lia.
    + exists s. split; [exact Hget|].
      unfold array_get in Hget. destruct (Z.ltb_spec status 0); [lia | exact Hget].
  - intros status Hs. unfold dfu_status_to_string, DFU_STATUS_errSTALLEDPKT.
    destruct (Z.gtb_spec status 15); [reflexivity | lia].
Qed.

(** C10: for every negative status code, [dfu_status_to_string] passes the
    only test it makes (the upper bound) and indexes [dfu_status_names]
    outside its bounds: the lookup yields no entry, and in particular not the
    "INVALID" sentinel. *)
Theorem dfu_status_to_string_negative (status : Z) (Hneg : status < 0) :
  (status >? DFU_STATUS_errSTALLEDPKT) = false /\
  dfu_status_to_string status = array_get dfu_status_names status /\
  dfu_status_to_string status = None /\
  dfu_status_to_string status <> Some "INVALID".
Proof.
  assert (Hg : (status >? DFU_STATUS_errSTALLEDPKT) = false).
  { unfold DFU_STATUS_errSTALLEDPKT. destruct (Z.gtb_spec status 15); [lia | reflexivity]. }
  assert (Hn : dfu_status_to_string status = None).
  { unfold dfu_status_to_string. rewrite Hg. unfold array_get.
    destruct (Z.ltb_spec status 0); [reflexivity | lia]. }
  repeat split; auto.
  - unfold dfu_status_to_string. now rewrite Hg.
  - rewrite Hn. discriminate.
Qed.

Lemma dfu_status_to_string_negative_witness :
  -1 < 0 /\ dfu_status_to_string (-1) = None.
Proof.
  split; [lia | exact (proj1 (proj2 (proj2 (dfu_status_to_string_negative (-1) eq_refl))))].
Defined.

(** ** Status decoder *)

Lemma lor_shiftl_add (a b n : Z) :
  0 <= n -> 0 <= b < 2 ^ n -> Z.lor (Z.shiftl a n) b = a * 2 ^ n + b.
Proof.
  intros Hn Hb.
  assert (Hdisj : Z.land (Z.shiftl a n) b = 0).
  { apply Z.bits_inj'. intros i Hi.
    rewrite Z.land_spec, Z.bits_0.
    destruct (Z.lt_ge_cases i n) as [Hlt | Hge].
    - now rewrite Z.shiftl_spec_low.
    - rewrite <- (Z.mod_small b (2 ^ n)) by lia.
      rewrite Z.mod_pow2_bits_high by lia. apply andb_false_r. }
  rewrite <- Z.shiftl_mul_pow2 by lia.
  rewrite <- Z.add_lor_land, Hdisj. lia.
Qed.

Lemma land_255_byte (b : Z) : 0 <= b < 256 -> Z.land 255 b = b.
Proof.
  intros Hb. rewrite Z.land_comm.
  change 255 with (Z.ones 8). rewrite Z.land_ones by lia.
  apply Z.mod_small. lia.
Qed.

(** The three masked, shifted and or-ed bytes are the little-endian 24-bit
    number. *)
Lemma le24_value (b1 b2 b3 : Z) :
  0 <= b1 < 256 -> 0 <= b2 < 256 -> 0 <= b3 < 256 ->
  Z.lor (Z.lor (Z.shiftl (Z.land 255 b3) 16) (Z.shiftl (Z.land 255 b2) 8))
        (Z.land 255 b1)
  = b1 + 256 * b2 + 65536 * b3.
Proof.
  intros H1 H2 H3. rewrite !land_255_byte by assumption.
  replace (Z.shiftl b3 16) with (Z.shiftl (Z.shiftl b3 8) 8)
    by (rewrite Z.shiftl_shiftl by lia; reflexivity).
  rewrite <- Z.shiftl_lor.
  rewrite (lor_shiftl_add b3 b2 8) by (cbn; lia).
  rewrite lor_shiftl_add by (cbn; lia).
  change (2 ^ 8) with 256. lia.
Qed.

Lemma byte_at_range (buffer : list Z) (i : nat) :
  Forall (fun b => 0 <= b < 256) buffer -> 0 <= byte_at buffer i < 256.
Proof.
  intros H. unfold byte_at. revert i.
  induction H as [|b l Hb Hl IH]; intros [|i]; cbn; try lia. apply IH.
Qed.

Lemma control_transfer_run (w : world) (rq : setup) (s : state) :
  control_transfer w rq s = (Val (libusb_control_transfer w (transfers s) rq), sent w rq s).
Proof. reflexivity. Qed.

Lemma dfu_get_status_run (Q D : Z) (w : world) (dif : dfu_if) (s : state) :
  dfu_get_status Q D w dif s =
    (Val (fst (libusb_control_transfer w (transfers s) (getstatus_setup dif)),
          status_of Q D dif
            (fst (libusb_control_transfer w (transfers s) (getstatus_setup dif)))
            (snd (libusb_control_transfer w (transfers s) (getstatus_setup dif)))),
     sent w (getstatus_setup dif) s).
Proof.
  unfold dfu_get_status, bind. rewrite control_transfer_run.
  destruct (libusb_control_transfer w (transfers s) (getstatus_setup dif)); reflexivity.
Qed.

Lemma dfu_clear_status_run (w : world) (interface : Z) (s : state) :
  dfu_clear_status w interface s =
    (Val (fst (libusb_control_transfer w (transfers s) (clrstatus_setup interface))),
     sent w (clrstatus_setup interface) s).
Proof.
  unfold dfu_clear_status, bind. rewrite control_transfer_run.
  destruct (libusb_control_transfer w (transfers s) (clrstatus_setup interface)); reflexivity.
Qed.

Lemma dfu_abort_run (w : world) (interface : Z) (s : state) :
  dfu_abort w interface s =
    (Val (fst (libusb_control_transfer w (transfers s) (abort_setup interface))),
     sent w (abort_setup interface) s).
Proof.
  unfold dfu_abort, bind. rewrite control_transfer_run.
  destruct (libusb_control_transfer w (transfers s) (abort_setup interface)); reflexivity.
Qed.

Lemma when_run (b : bool) (fmt : string) (args : list Z) (s : state) :
  when b (fprintf_stderr fmt args) s =
    (Val tt, if b then logged (EvStderr fmt args) s else s).
Proof. destruct b; reflexivity. Qed.

(** C5 (as amended): for every GETSTATUS exchange, with [result] the value
    the control transfer returned and [buffer] the bytes it delivered,
    [dfu_get_status] returns [result] unchanged and always writes all four
    fields.  If exactly 6 bytes were returned the record holds byte 0 as
    status code, bytes 1-3 as the little-endian 24-bit poll timeout (replaced
    by [DEFAULT_POLLTIMEOUT] when the interface's quirks include
    [QUIRK_POLLTIMEOUT]), byte 4 as state code and byte 5 as string index.
    Otherwise the record is exactly the default one (unknown error, poll
    timeout 0, error state, string index 0), and the return value reports a
    failure exactly when the transfer itself failed ([result < 0]): a short
    read returns its non-negative byte count. *)
Theorem dfu_get_status_decodes
  (Q D : Z) (w : world) (dif : dfu_if) (s : state) (result : Z) (buffer : list Z)
  (Hans : libusb_control_transfer w (transfers s) (getstatus_setup dif) = (result, buffer))
  (Hbytes : Forall (fun b => 0 <= b < 256) buffer) :
  exists (st : dfu_status) (s' : state),
    dfu_get_status Q D w dif s = (Val (result, st), s') /\
    (result = 6 ->
       bStatus st = byte_at buffer 0 /\
       bwPollTimeout st =
         (if Z.land (quirks dif) Q =? 0
          then byte_at buffer 1 + 256 * byte_at buffer 2 + 65536 * byte_at buffer 3
          else D) /\
       bState st = byte_at buffer 4 /\
       iString st = byte_at buffer 5) /\
    (result <> 6 ->
       st = mk_dfu_status DFU_STATUS_ERROR_UNKNOWN 0 STATE_DFU_ERROR 0 /\
       (reports_failure result = true <-> result < 0)).
Proof.
  pose proof (dfu_get_status_run Q D w dif s) as Hrun.
  rewrite Hans in Hrun. cbn [fst snd] in Hrun.
  exists (status_of Q D dif result buffer), (sent w (getstatus_setup dif) s).
  split; [exact Hrun|].
  unfold status_of. split.
  - intros ->. cbn [Z.eqb Pos.eqb bStatus bwPollTimeout bState iString].
    repeat split. unfold truthy.
    destruct (Z.land (quirks dif) Q =? 0); cbn [negb]; [|reflexivity].
    apply le24_value; apply byte_at_range; assumption.
  - intros Hne. destruct (Z.eqb_spec 6 result) as [E|_]; [congruence|].
    split; [reflexivity|]. unfold reports_failure. apply Z.ltb_lt.
Qed.

Lemma dfu_get_status_decodes_witness :
  exists st s',
    dfu_get_status 1 5 (Worlds.plugged Worlds.dev0 (Worlds.steady 0 2)) Worlds.dev0
                   (boot (-1) (-1)) = (Val (6, st), s') /\
    bState st = 2.
Proof.
  destruct (dfu_get_status_decodes 1 5
              (Worlds.plugged Worlds.dev0 (Worlds.steady 0 2)) Worlds.dev0
              (boot (-1) (-1)) 6 [0; 0; 0; 0; 2; 0] eq_refl)
    as (st & s' & Hrun & Hfull & _).
  - repeat constructor; lia.
  - exists st, s'. split; [exact Hrun|].
    destruct (Hfull eq_refl) as (_ & _ & Hst & _). exact Hst.
Defined.

(** C5 as the spec words it fails on a short read: three bytes arrive, the
    record is the default one, and the value returned is 3, which is not a
    failure for the callers of [dfu_get_status]. *)
Lemma dfu_get_status_short_read_returns_count :
  fst (dfu_get_status 1 5 (Worlds.plugged Worlds.dev0 Worlds.short_read) Worlds.dev0
                      (boot (-1) (-1)))
    = Val (3, mk_dfu_status DFU_STATUS_ERROR_UNKNOWN 0 STATE_DFU_ERROR 0) /\
  reports_failure 3 = false.
Proof. split; reflexivity. Qed.

(** ** Setup of [dfu_flash] *)

Lemma dfu_flash_after_probe (Q D : Z) (w : world) (mv mp : Z) (fuel : nat) :
  libusb_init w = 0 ->
  dfu_flash Q D w fuel (boot mv mp) =
    match probed w mv mp with
    | [] => out ENODEV
    | [d] =>
      if id_mismatch (dfu_load_file w) d then
        fprintf_stderr "Error: File ID %04x:%04x does not match device (%04x:%04x)"
          [idVendor (dfu_load_file w); idProduct (dfu_load_file w); vendor d; product d] ;;
        out EINVAL
      else open_device w d ;; flash_device Q D w fuel d
    | _ :: _ :: _ =>
      fprintf_stderr more_than_one_device [] ;;
      out ENODEV
    end (probed_state w mv mp).
Proof.
  intros Hinit. unfold dfu_flash, probed_state, probed, adopted. rewrite Hinit.
  cbn.
  destruct ((mv <? 0) && negb (idVendor (dfu_load_file w) =? 65535)); cbn;
    destruct ((mp <? 0) && negb (idProduct (dfu_load_file w) =? 65535)); cbn;
    match goal with
    | |- context [probe_devices w ?a ?b] =>
        destruct (probe_devices w a b) as [|d [|d' l]]
    end; reflexivity.
Qed.

Lemma id_mismatch_true (file : dfu_file) (d : dfu_if) :
  (idVendor file <> 65535 /\ idVendor file <> vendor d) \/
  (idProduct file <> 65535 /\ idProduct file <> product d) ->
  id_mismatch file d = true.
Proof.
  unfold id_mismatch. intros [[H1 H2] | [H1 H2]];
    apply Z.eqb_neq in H1, H2; rewrite H1, H2; cbn; auto using orb_true_r.
Qed.

(** C6: if the loaded firmware image declares a vendor id or a product id
    that is not the wildcard 0xFFFF and differs from the corresponding id of
    the one device the enumerator resolved, [dfu_flash] returns [EINVAL]
    after printing both id pairs, and sets [*finished] to -1; up to that
    return it has issued no control transfer and opened no handle. *)
Theorem dfu_flash_id_mismatch
  (Q D : Z) (w : world) (mv mp : Z) (fuel : nat) (d : dfu_if)
  (Hinit : libusb_init w = 0)
  (Hone : probed w mv mp = [d])
  (Hmis : (idVendor (dfu_load_file w) <> 65535 /\
           idVendor (dfu_load_file w) <> vendor d) \/
          (idProduct (dfu_load_file w) <> 65535 /\
           idProduct (dfu_load_file w) <> product d)) :
  exists s',
    dfu_flash Q D w fuel (boot mv mp) = (Val EINVAL, s') /\
    finished s' = -1 /\
    trace s' =
      [ EvLibusbInit 0; EvLoadFile (dfu_load_file w);
        EvProbe (adopted mv (idVendor (dfu_load_file w)))
                (adopted mp (idProduct (dfu_load_file w))) 1;
        EvStderr "Error: File ID %04x:%04x does not match device (%04x:%04x)"
                 [ idVendor (dfu_load_file w); idProduct (dfu_load_file w);
                   vendor d; product d ];
        EvLibusbExit ] /\
    filter is_control (trace s') = [] /\
    transfers s' = 0%nat /\
    filter is_open (trace s') = [] /\
    handle_open s' = false.
Proof.
  rewrite (dfu_flash_after_probe Q D w mv mp fuel Hinit).
  unfold probed_state. rewrite Hone, (id_mismatch_true _ _ Hmis).
  eexists. split; [reflexivity|]. cbn. repeat split.
Qed.

Lemma dfu_flash_id_mismatch_witness :
  exists s',
    dfu_flash 1 5 (Worlds.enumerated 1155 22314 [Worlds.dev0]) 4 (boot (-1) (-1))
      = (Val EINVAL, s') /\
    filter is_control (trace s') = [].
Proof.
  destruct (dfu_flash_id_mismatch 1 5 (Worlds.enumerated 1155 22314 [Worlds.dev0])
              (-1) (-1) 4 Worlds.dev0 eq_refl eq_refl)
    as (s' & Hrun & _ & _ & Hctl & _).
  - right. cbn. split; discriminate.
  - exists s'. split; assumption.
Defined.

(** C7: if the enumerator resolves no candidate interface, [dfu_flash]
    returns [ENODEV] ("no such device") without opening a device handle and
    without printing anything; if it resolves more than one, [dfu_flash]
    prints that more than one DFU capable device was found and returns
    [ENODEV], again without opening a device handle.  Both set [*finished] to
    -1, and in both the run consists of [libusb_init], the file load, the
    probe and [libusb_exit] only. *)
Theorem dfu_flash_needs_exactly_one_device
  (Q D : Z) (w : world) (mv mp : Z) (fuel : nat)
  (Hinit : libusb_init w = 0) :
  (probed w mv mp = [] ->
   exists s',
     dfu_flash Q D w fuel (boot mv mp) = (Val ENODEV, s') /\
     finished s' = -1 /\
     filter is_open (trace s') = [] /\
     handle_open s' = false /\
     filter is_control (trace s') = [] /\
     trace s' =
       [ EvLibusbInit 0; EvLoadFile (dfu_load_file w);
         EvProbe (adopted mv (idVendor (dfu_load_file w)))
                 (adopted mp (idProduct (dfu_load_file w))) 0;
         EvLibusbExit ]) /\
  ((1 < List.length (probed w mv mp))%nat ->
   exists s',
     dfu_flash Q D w fuel (boot mv mp) = (Val ENODEV, s') /\
     finished s' = -1 /\
     In (EvStderr more_than_one_device []) (trace s') /\
     filter is_open (trace s') = [] /\
     handle_open s' = false /\
     filter is_control (trace s') = [] /\
     trace s' =
       [ EvLibusbInit 0; EvLoadFile (dfu_load_file w);
         EvProbe (adopted mv (idVendor (dfu_load_file w)))
                 (adopted mp (idProduct (dfu_load_file w)))
                 (List.length (probed w mv mp));
         EvStderr more_than_one_device [];
         EvLibusbExit ] /\
     String.length more_than_one_device = 120%nat /\
     String.get 119 more_than_one_device = Some (Ascii.ascii_of_nat 10)).
Proof.
  rewrite (dfu_flash_after_probe Q D w mv mp fuel Hinit).
  unfold probed_state. split.
  - intros ->. eexists. split; [reflexivity|]. cbn. repeat split.
  - intros Hlen. destruct (probed w mv mp) as [|d1 [|d2 l]]; cbn in Hlen; try lia.
    eexists. split; [reflexivity|].
    cbn -[more_than_one_device]. repeat split. auto.
Qed.

Lemma dfu_flash_needs_exactly_one_device_witness :
  (exists s',
     dfu_flash 1 5 (Worlds.enumerated 65535 65535 []) 4 (boot (-1) (-1))
       = (Val ENODEV, s') /\ handle_open s' = false) /\
  (exists s',
     dfu_flash 1 5 (Worlds.enumerated 65535 65535 [Worlds.dev0; Worlds.dev0]) 4
               (boot (-1) (-1))
       = (Val ENODEV, s') /\ handle_open s' = false).
Proof.
  split.
  - destruct (proj1 (dfu_flash_needs_exactly_one_device 1 5
                       (Worlds.enumerated 65535 65535 []) (-1) (-1) 4 eq_refl)
                    eq_refl)
      as (s' & Hrun & _ & _ & Hclosed & _).
    exists s'. split; assumption.
  - destruct (proj2 (dfu_flash_needs_exactly_one_device 1 5
                       (Worlds.enumerated 65535 65535 [Worlds.dev0; Worlds.dev0])
                       (-1) (-1) 4 eq_refl))
      as (s' & Hrun & _ & _ & _ & Hclosed & _).
    + cbn. lia.
    + exists s'. split; assumption.
Defined.

(** ** The status-poll loop *)

Section Loop.

Variables Q D : Z.
Variable w : world.
Variable d : dfu_if.

(** One pass through the loop, from the label [status_again] to the end of
    the [switch]. *)
Lemma status_again_unfold (fuel : nat) (s : state) :
  status_again Q D w (S fuel) d s =
    (let ans := libusb_control_transfer w (transfers s) (getstatus_setup d) in
     let r := fst ans in
     let status := status_of Q D d r (snd ans) in
     let s1 := logged (EvUsleep (umul32 (bwPollTimeout status) 1000))
                 (if r <? 0
                  then logged (EvStderr "error get_status: %s" [r])
                              (sent w (getstatus_setup d) s)
                  else sent w (getstatus_setup d) s) in
     if (bState status =? DFU_STATE_appIDLE) || (bState status =? DFU_STATE_appDETACH) then
       (Val (r, status), logged (EvStderr "Device still in Runtime Mode!" []) s1)
     else if bState status =? DFU_STATE_dfuERROR then
       let c := fst (libusb_control_transfer w (transfers s1) (clrstatus_setup (intf d))) in
       status_again Q D w fuel d
         (if c <? 0
          then logged (EvStderr "error clear_status" []) (sent w (clrstatus_setup (intf d)) s1)
          else sent w (clrstatus_setup (intf d)) s1)
     else if (bState status =? DFU_STATE_dfuDNLOAD_IDLE)
             || (bState status =? DFU_STATE_dfuUPLOAD_IDLE) then
       let c := fst (libusb_control_transfer w (transfers s1) (abort_setup (intf d))) in
       status_again Q D w fuel d
         (if c <? 0
          then logged (EvStderr "can't send DFU_ABORT" []) (sent w (abort_setup (intf d)) s1)
          else sent w (abort_setup (intf d)) s1)
     else (Val (r, status), s1)).
Proof.
  cbv zeta. cbn [status_again]. unfold bind at 1. rewrite dfu_get_status_run.
  unfold bind at 1. rewrite when_run.
  unfold bind at 1. unfold usleep at 1, emit at 1, modify at 1.
  fold (logged (EvUsleep (umul32 (bwPollTimeout (status_of Q D d
          (fst (libusb_control_transfer w (transfers s) (getstatus_setup d)))
          (snd (libusb_control_transfer w (transfers s) (getstatus_setup d))))) 1000))
          (if fst (libusb_control_transfer w (transfers s) (getstatus_setup d)) <? 0
           then logged (EvStderr "error get_status: %s"
                          [fst (libusb_control_transfer w (transfers s) (getstatus_setup d))])
                       (sent w (getstatus_setup d) s)
           else sent w (getstatus_setup d) s)).
  repeat match goal with
         | |- context [if ?c then _ else _] =>
             lazymatch c with
             | _ <? _ => fail
             | _ => destruct c
             end
         end;
    try reflexivity;
    unfold bind at 1; rewrite ?dfu_clear_status_run, ?dfu_abort_run;
    unfold bind at 1; rewrite when_run; reflexivity.
Qed.

(** The loop never terminates the process: it returns or polls again. *)
Lemma status_again_no_exit (fuel : nat) (s : state) (c : Z) (s' : state) :
  status_again Q D w fuel d s <> (Exit c, s').
Proof.
  revert s. induction fuel as [|fuel IH]; intros s.
  - cbn. discriminate.
  - rewrite status_again_unfold. cbv zeta.
    repeat match goal with
           | |- context [if ?b then _ else _] =>
               lazymatch b with
               | _ <? _ => fail
               | _ => destruct b
               end
           end; try discriminate; apply IH.
Qed.

(** When the loop returns, the state it last observed is one on which the
    [switch] does not jump back. *)
Lemma status_again_settled (fuel : nat) (s : state) (r : Z) (st : dfu_status) (s' : state) :
  status_again Q D w fuel d s = (Val (r, st), s') -> repolls (bState st) = false.
Proof.
  revert s. induction fuel as [|fuel IH]; intros s; [cbn; discriminate|].
  rewrite status_again_unfold. cbv zeta.
  set (st0 := status_of Q D d
                (fst (libusb_control_transfer w (transfers s) (getstatus_setup d)))
                (snd (libusb_control_transfer w (transfers s) (getstatus_setup d)))).
  unfold repolls.
  destruct (Z.eqb_spec (bState st0) DFU_STATE_appIDLE) as [E0|E0];
    destruct (Z.eqb_spec (bState st0) DFU_STATE_appDETACH) as [E1|E1];
    destruct (Z.eqb_spec (bState st0) DFU_STATE_dfuERROR) as [E2|E2];
    destruct (Z.eqb_spec (bState st0) DFU_STATE_dfuDNLOAD_IDLE) as [E3|E3];
    destruct (Z.eqb_spec (bState st0) DFU_STATE_dfuUPLOAD_IDLE) as [E4|E4];
    cbn [orb]; intros H;
    try (apply IH in H; exact H);
    try (inversion H; subst st; clear H;
         unfold DFU_STATE_appIDLE, DFU_STATE_appDETACH, DFU_STATE_dfuERROR,
           DFU_STATE_dfuDNLOAD_IDLE, DFU_STATE_dfuUPLOAD_IDLE in *;
         destruct (Z.eqb_spec (bState st0) 10); try lia;
         destruct (Z.eqb_spec (bState st0) 5); try lia;
         destruct (Z.eqb_spec (bState st0) 9); try lia;
         reflexivity).
Qed.

Lemma observed_bState (s : state) :
  bState (status_of Q D d
            (fst (libusb_control_transfer w (transfers s) (getstatus_setup d)))
            (snd (libusb_control_transfer w (transfers s) (getstatus_setup d))))
  = observed Q D w d (transfers s).
Proof. reflexivity. Qed.

(** A pass that observes a state on which the [switch] does not jump back
    leaves the loop, without a CLRSTATUS. *)
Lemma status_again_leaves (fuel : nat) (s : state) :
  repolls (observed Q D w d (transfers s)) = false ->
  exists r status s',
    status_again Q D w (S fuel) d s = (Val (r, status), s') /\
    bState status = observed Q D w d (transfers s) /\
    clrstatus_sent (log s') = clrstatus_sent (log s) /\
    transfers s' = S (transfers s).
Proof.
  intros Hrep. rewrite status_again_unfold. cbv zeta. rewrite !observed_bState.
  unfold repolls in Hrep. apply orb_false_elim in Hrep as [Hrep Hup].
  apply orb_false_elim in Hrep as [Herr Hdn]. rewrite Herr, Hdn, Hup. cbn [orb].
  destruct ((observed Q D w d (transfers s) =? DFU_STATE_appIDLE)
            || (observed Q D w d (transfers s) =? DFU_STATE_appDETACH));
    do 3 eexists; (split; [reflexivity|]);
    destruct (fst (libusb_control_transfer w (transfers s) (getstatus_setup d)) <? 0);
    repeat split.
Qed.

(** A pass that observes dfuERROR sends one CLRSTATUS and polls again. *)
Lemma status_again_clears (fuel : nat) (s : state) :
  observed Q D w d (transfers s) = DFU_STATE_dfuERROR ->
  exists s1,
    status_again Q D w (S fuel) d s = status_again Q D w fuel d s1 /\
    clrstatus_sent (log s1) = S (clrstatus_sent (log s)) /\
    transfers s1 = S (S (transfers s)).
Proof.
  intros Herr. rewrite status_again_unfold. cbv zeta. rewrite !observed_bState, Herr.
  cbn [DFU_STATE_dfuERROR DFU_STATE_appIDLE DFU_STATE_appDETACH Z.eqb Pos.eqb orb].
  eexists. split; [reflexivity|].
  repeat match goal with
         | |- context [if ?b then _ else _] => destruct b
         end; repeat split.
Qed.

End Loop.

(** C2 (as amended): the normalization poll loop of [dfu_flash] has no retry
    cap and no loop-guard error.  Every time the observed state is dfu-error
    it issues one CLRSTATUS and polls again, however many consecutive times:
    for every [k], against a device that is observed in dfu-error on [k]
    consecutive polls and then in a state on which the [switch] does not
    jump back, the loop issues exactly [k] CLRSTATUS requests and then ends
    normally, with that last state.  The loop ends only on a state other than
    dfu-error, dfu-download-idle and dfu-upload-idle, and it never terminates
    the process. *)
Theorem status_again_clears_every_error
  (Q D : Z) (w : world) (d : dfu_if) (k extra : nat) (s : state)
  (Herr : forall i, (i < k)%nat ->
            observed Q D w d (transfers s + 2 * i) = DFU_STATE_dfuERROR)
  (Hend : repolls (observed Q D w d (transfers s + 2 * k)) = false) :
  (exists r status s',
     status_again Q D w (S k + extra) d s = (Val (r, status), s') /\
     bState status = observed Q D w d (transfers s + 2 * k) /\
     clrstatus_sent (log s') = (clrstatus_sent (log s) + k)%nat /\
     transfers s' = (transfers s + 2 * k + 1)%nat) /\
  (forall fuel s0 r st s1,
     status_again Q D w fuel d s0 = (Val (r, st), s1) -> repolls (bState st) = false) /\
  (forall fuel s0 c s1, status_again Q D w fuel d s0 <> (Exit c, s1)).
Proof.
  split; [|split; [intros fuel s0 r st s1; apply status_again_settled
                  |intros; apply status_again_no_exit]].
  revert s Herr Hend. induction k as [|k IH]; intros s Herr Hend.
  - replace (transfers s + 2 * 0)%nat with (transfers s) in * by lia.
    destruct (status_again_leaves Q D w d extra s Hend) as (r & st & s' & Hrun & Hst & Hc & Ht).
    exists r, st, s'. cbn [Nat.add]. repeat split; try assumption; lia.
  - destruct (status_again_clears Q D w d (S k + extra) s) as (s1 & Hrun & Hc & Ht).
    { specialize (Herr 0%nat ltac:(lia)).
      now replace (transfers s + 2 * 0)%nat with (transfers s) in Herr by lia. }
    destruct (IH s1) as (r & st & s' & Hrun' & Hst & Hc' & Ht').
    + intros i Hi. replace (transfers s1 + 2 * i)%nat with (transfers s + 2 * S i)%nat by lia.
      apply Herr. lia.
    + now replace (transfers s1 + 2 * k)%nat with (transfers s + 2 * S k)%nat by lia.
    + exists r, st, s'. change (S (S k) + extra)%nat with (S (S k + extra)).
      rewrite Hrun, Hrun'. repeat split; try lia.
      rewrite Hst. f_equal. lia.
Qed.

Lemma status_again_clears_every_error_witness :
  exists r status s',
    status_again 1 5 (Worlds.plugged Worlds.dev0 (Worlds.recovering 2)) 3 Worlds.dev0
                 (boot (-1) (-1)) = (Val (r, status), s') /\
    bState status = DFU_STATE_dfuIDLE /\
    clrstatus_sent (log s') = 2%nat.
Proof.
  destruct (proj1 (status_again_clears_every_error 1 5
                     (Worlds.plugged Worlds.dev0 (Worlds.recovering 2)) Worlds.dev0
                     2 0 (boot (-1) (-1))
                     (fun i Hi =>
                        match i as j return
                          (j < 2)%nat ->
                          observed 1 5 (Worlds.plugged Worlds.dev0 (Worlds.recovering 2))
                                   Worlds.dev0 (0 + 2 * j) = DFU_STATE_dfuERROR
                        with
                        | O => fun _ => eq_refl
                        | S O => fun _ => eq_refl
                        | S (S j) => fun H => ltac:(lia)
                        end Hi)
                     eq_refl))
    as (r & status & s' & Hrun & Hst & Hc & _).
  exists r, status, s'. repeat split; assumption.
Defined.

Lemma status_again_faulted (fuel : nat) (s : state) :
  fst (status_again 1 5 Worlds.faulted fuel Worlds.dev0 s) = OutOfFuel /\
  clrstatus_sent (log (snd (status_again 1 5 Worlds.faulted fuel Worlds.dev0 s)))
  = (clrstatus_sent (log s) + fuel)%nat.
Proof.
  revert s. induction fuel as [|fuel IH]; intros s.
  - cbn. split; [reflexivity | lia].
  - destruct (status_again_clears 1 5 Worlds.faulted Worlds.dev0 fuel s eq_refl)
      as (s1 & Hrun & Hc & _).
    rewrite Hrun. destruct (IH s1) as [Ho Hn]. split; [exact Ho | lia].
Qed.

Lemma dfu_flash_faulted (fuel : nat) :
  fst (dfu_flash 1 5 Worlds.faulted fuel (boot (-1) (-1))) = OutOfFuel /\
  clrstatus_sent (log (snd (dfu_flash 1 5 Worlds.faulted fuel (boot (-1) (-1))))) = fuel.
Proof.
  rewrite dfu_flash_after_probe by reflexivity.
  cbn -[status_again flash_device]. unfold flash_device, bind.
  match goal with
  | |- context [status_again 1 5 Worlds.faulted fuel Worlds.dev0 ?s] =>
      destruct (status_again_faulted fuel s) as [Ho Hn];
      destruct (status_again 1 5 Worlds.faulted fuel Worlds.dev0 s) as [[a|c|] s']
  end; cbn [fst snd] in *; try discriminate.
  split; [reflexivity | exact Hn].
Qed.

(** C2 as the spec words it fails: against a device that reports dfu-error
    at every poll, [dfu_flash] has not left the loop whatever the fuel, and
    the number of CLRSTATUS requests it has issued exceeds every cap. *)
Lemma dfu_flash_spins_on_faulted_device :
  (forall fuel, fst (dfu_flash 1 5 Worlds.faulted fuel (boot (-1) (-1))) = OutOfFuel) /\
  (forall cap, exists fuel,
     (cap < clrstatus_sent
              (log (snd (dfu_flash 1 5 Worlds.faulted fuel (boot (-1) (-1))))))%nat).
Proof.
  split.
  - intros fuel. apply dfu_flash_faulted.
  - intros cap. exists (S cap). rewrite (proj2 (dfu_flash_faulted (S cap))). lia.
Qed.

(** ** Teardown *)

Lemma dfu_flash_init_failed (Q D : Z) (w : world) (mv mp : Z) (fuel : nat) :
  truthy (libusb_init w) = true ->
  dfu_flash Q D w fuel (boot mv mp) =
    (Val EIO,
     mk_state mv mp [] false 0 0%nat
       [ EvStderr "unable to initialize libusb: %s" [libusb_init w];
         EvLibusbInit (libusb_init w) ]).
Proof. intros H. unfold dfu_flash. cbn. rewrite H. reflexivity. Qed.

Lemma dfu_flash_after_setup
  (Q D : Z) (w : world) (mv mp : Z) (fuel : nat) (d : dfu_if) :
  libusb_init w = 0 ->
  probed w mv mp = [d] ->
  id_mismatch (dfu_load_file w) d = false ->
  libusb_open w d = (0, true) ->
  0 <= libusb_claim_interface w d ->
  0 <= libusb_set_interface_alt_setting w d ->
  dfu_flash Q D w fuel (boot mv mp) = flash_device Q D w fuel d (ready_state w mv mp d).
Proof.
  intros Hinit Hone Hid Hopen Hclaim Halt.
  rewrite (dfu_flash_after_probe Q D w mv mp fuel Hinit).
  unfold probed_state. rewrite Hone, Hid.
  unfold bind at 1, open_device. rewrite Hopen. cbn -[flash_device].
  apply Z.ltb_ge in Hclaim, Halt. rewrite Hclaim. cbn -[flash_device].
  rewrite Halt. reflexivity.
Qed.

(** The recovery attempt of lines 499-510 returns; it only adds to the log,
    and does not call the download engine. *)
Lemma recovery_run (Q D : Z) (w : world) (d : dfu_if) (st : dfu_status) (s1 : state) :
  exists s2,
    (if negb (DFU_STATUS_OK =? bStatus st)
     then
       c <- dfu_clear_status w (intf d) ;;
       when (c <? 0) (fprintf_stderr "USB communication error" []) ;;
       '(g, status') <- dfu_get_status Q D w d ;;
       when (g <? 0) (fprintf_stderr "USB communication error" []) ;;
       when (negb (DFU_STATUS_OK =? bStatus status'))
            (fprintf_stderr "Status is not OK: %d" [bStatus status']) ;;
       usleep (umul32 (bwPollTimeout status') 1000)
     else ret tt) s1 = (Val tt, s2) /\
    incl (log s1) (log s2) /\
    filter is_dnload (log s2) = filter is_dnload (log s1).
Proof.
  destruct (negb (DFU_STATUS_OK =? bStatus st)).
  - unfold bind at 1. rewrite dfu_clear_status_run.
    unfold bind at 1. rewrite when_run.
    unfold bind at 1. rewrite dfu_get_status_run.
    unfold bind at 1. rewrite when_run.
    unfold bind at 1. rewrite when_run.
    eexists. split; [reflexivity|].
    repeat match goal with
           | |- context [if ?b then _ else _] => destruct b
           end;
      cbn; (split; [intros e He; cbn; auto 10 | reflexivity]).
  - exists s1. repeat split. apply incl_refl.
Qed.

(** Whenever the poll loop returns, [dfu_flash] goes on to the download
    engine, with the resolved transfer size, then closes the handle and
    returns [EFAULT] or the last value of [ret]. *)
Lemma flash_device_after_loop
  (Q D : Z) (w : world) (fuel : nat) (d : dfu_if) (s : state)
  (r : Z) (st : dfu_status) (s1 : state) :
  status_again Q D w fuel d s = (Val (r, st), s1) ->
  exists s' rest,
    flash_device Q D w fuel d s =
      (Val (if dfuload_do_dnload w d (resolved_size d) <? 0 then EFAULT else r), s') /\
    handle_open s' = false /\
    log s' =
      EvLibusbExit :: EvClose
        :: EvDnload (resolved_size d) (dfuload_do_dnload w d (resolved_size d))
        :: (if truthy (libusb_le16_to_cpu (wTransferSize d)) then []
            else [EvStderr "Transfer size must be specified" []])
        ++ rest /\
    incl (log s1) rest /\
    filter is_dnload rest = filter is_dnload (log s1).
Proof.
  intros Hloop. unfold flash_device. unfold bind at 1. rewrite Hloop.
  unfold bind at 1.
  destruct (recovery_run Q D w d st s1) as (s2 & Hrec & Hincl & Hdn).
  rewrite Hrec. unfold resolved_size.
  destruct (truthy (libusb_le16_to_cpu (wTransferSize d))) eqn:Hsz.
  - cbn. eexists. exists (log s2). repeat split; assumption.
  - apply negb_false_iff, Z.eqb_eq in Hsz. rewrite Hsz.
    cbn. eexists. exists (log s2). repeat split; assumption.
Qed.

(** From the first poll on, [dfu_flash] does not terminate the process, and
    when it returns it has closed the handle just before [libusb_exit]. *)
Lemma flash_device_outcome
  (Q D : Z) (w : world) (fuel : nat) (d : dfu_if) (s : state)
  (o : outcome Z) (s' : state) :
  flash_device Q D w fuel d s = (o, s') ->
  (forall r, o = Val r ->
     handle_open s' = false /\ exists l, log s' = EvLibusbExit :: EvClose :: l) /\
  (forall c, o <> Exit c).
Proof.
  destruct (status_again Q D w fuel d s) as [[[r st]|c|] s1] eqn:Hloop.
  - destruct (flash_device_after_loop Q D w fuel d s r st s1 Hloop)
      as (s2 & rest & Hrun & Hclosed & Hlog & _).
    rewrite Hrun. intros H; inversion H; subst; clear H.
    split; [intros r0 _; split; [exact Hclosed | eexists; exact Hlog]
           | intros c; discriminate].
  - exfalso. exact (status_again_no_exit Q D w d fuel s c s1 Hloop).
  - unfold flash_device. unfold bind at 1. rewrite Hloop.
    intros Hrun. inversion Hrun; subst.
    split; [intros r Hr; discriminate | intros c; discriminate].
Qed.

(** C4 as the spec words it fails: when the interface cannot be claimed,
    [dfu_flash] ends in [errx] with the handle it opened still open, and
    [libusb_close] is never called. *)
Lemma dfu_flash_exits_without_closing :
  fst (dfu_flash 1 5 (Worlds.busy Worlds.dev0) 4 (boot (-1) (-1))) = Exit EX_IOERR /\
  handle_open (snd (dfu_flash 1 5 (Worlds.busy Worlds.dev0) 4 (boot (-1) (-1)))) = true /\
  trace (snd (dfu_flash 1 5 (Worlds.busy Worlds.dev0) 4 (boot (-1) (-1)))) =
    [ EvLibusbInit 0; EvLoadFile (mk_dfu_file 65535 65535); EvProbe (-1) (-1) 1;
      EvOpen 0 true; EvClaim 0 (-6);
      EvErrx EX_IOERR "Cannot claim interface - %s" [-6] ].
Proof. repeat split. Qed.

(** ** What follows the poll loop *)

Section AfterLoop.

Variables Q D : Z.
Variable w : world.
Variable d : dfu_if.

(** Only a complete six-byte answer can show a state other than dfuERROR. *)
Lemma status_of_not_error (result : Z) (buffer : list Z) :
  bState (status_of Q D d result buffer) <> STATE_DFU_ERROR -> result = 6.
Proof.
  unfold status_of. destruct (Z.eqb_spec 6 result) as [<-|_]; [reflexivity|].
  cbn. intros H. now elim H.
Qed.

(** A pass that observes appIDLE or appDETACH prints its message and leaves
    the loop with [ret] at 6, as any other pass that leaves it. *)
Lemma status_again_runtime (fuel : nat) (s : state) :
  observed Q D w d (transfers s) = DFU_STATE_appIDLE \/
  observed Q D w d (transfers s) = DFU_STATE_appDETACH ->
  exists st s1,
    status_again Q D w (S fuel) d s = (Val (6, st), s1) /\
    In (EvStderr "Device still in Runtime Mode!" []) (log s1) /\
    filter is_dnload (log s1) = filter is_dnload (log s).
Proof.
  intros Hobs.
  assert (Hr : fst (libusb_control_transfer w (transfers s) (getstatus_setup d)) = 6).
  { apply status_of_not_error with (buffer := snd (libusb_control_transfer w (transfers s)
                                                     (getstatus_setup d))).
    rewrite observed_bState. destruct Hobs as [-> | ->]; discriminate. }
  rewrite status_again_unfold. cbv zeta. rewrite !observed_bState, Hr.
  replace ((observed Q D w d (transfers s) =? DFU_STATE_appIDLE)
           || (observed Q D w d (transfers s) =? DFU_STATE_appDETACH)) with true
    by (destruct Hobs as [-> | ->]; reflexivity).
  do 2 eexists. split; [reflexivity|]. cbn. split; [auto | reflexivity].
Qed.

(** In run-time mode [dfu_flash] goes on to the download engine. *)
Lemma dfu_flash_runtime_mode_downloads (mv mp : Z) (fuel : nat) :
  libusb_init w = 0 ->
  probed w mv mp = [d] ->
  id_mismatch (dfu_load_file w) d = false ->
  libusb_open w d = (0, true) ->
  0 <= libusb_claim_interface w d ->
  0 <= libusb_set_interface_alt_setting w d ->
  observed Q D w d 0 = DFU_STATE_appIDLE \/ observed Q D w d 0 = DFU_STATE_appDETACH ->
  exists s',
    dfu_flash Q D w (S fuel) (boot mv mp) =
      (Val (if dfuload_do_dnload w d (resolved_size d) <? 0 then EFAULT else 6), s') /\
    In (EvStderr "Device still in Runtime Mode!" []) (log s') /\
    In (EvDnload (resolved_size d) (dfuload_do_dnload w d (resolved_size d))) (log s').
Proof.
  intros Hinit Hone Hid Hopen Hclaim Halt Hobs.
  rewrite (dfu_flash_after_setup Q D w mv mp (S fuel) d Hinit Hone Hid Hopen Hclaim Halt).
  destruct (status_again_runtime fuel (ready_state w mv mp d) Hobs)
    as (st & s1 & Hloop & Hmsg & _).
  destruct (flash_device_after_loop Q D w (S fuel) d _ 6 st s1 Hloop)
    as (s' & rest & Hrun & _ & Hlog & Hincl & _).
  exists s'. split; [exact Hrun|]. rewrite Hlog. split.
  - do 3 right. apply in_or_app. right. apply Hincl, Hmsg.
  - right. right. left. reflexivity.
Qed.

(** Without an advertised transfer size [dfu_flash] prints its message and
    goes on to the download engine with the control endpoint's packet size. *)
Lemma dfu_flash_without_transfer_size
  (mv mp : Z) (fuel : nat) (r : Z) (st : dfu_status) (s1 : state) :
  libusb_init w = 0 ->
  probed w mv mp = [d] ->
  id_mismatch (dfu_load_file w) d = false ->
  libusb_open w d = (0, true) ->
  0 <= libusb_claim_interface w d ->
  0 <= libusb_set_interface_alt_setting w d ->
  wTransferSize d = 0 ->
  status_again Q D w fuel d (ready_state w mv mp d) = (Val (r, st), s1) ->
  exists s' rest,
    dfu_flash Q D w fuel (boot mv mp) =
      (Val (if dfuload_do_dnload w d (Z.max 0 (bMaxPacketSize0 d)) <? 0
            then EFAULT else r), s') /\
    log s' =
      EvLibusbExit :: EvClose
        :: EvDnload (Z.max 0 (bMaxPacketSize0 d))
                    (dfuload_do_dnload w d (Z.max 0 (bMaxPacketSize0 d)))
        :: EvStderr "Transfer size must be specified" [] :: rest.
Proof.
  intros Hinit Hone Hid Hopen Hclaim Halt Hsz Hloop.
  rewrite (dfu_flash_after_setup Q D w mv mp fuel d Hinit Hone Hid Hopen Hclaim Halt).
  destruct (flash_device_after_loop Q D w fuel d _ r st s1 Hloop)
    as (s' & rest & Hrun & _ & Hlog & _).
  assert (Hres : resolved_size d = Z.max 0 (bMaxPacketSize0 d)).
  { unfold resolved_size, libusb_le16_to_cpu. rewrite Hsz.
    destruct (Z.ltb_spec 0 (bMaxPacketSize0 d)); lia. }
  rewrite Hres in Hrun, Hlog.
  unfold libusb_le16_to_cpu in Hlog. rewrite Hsz in Hlog. cbn in Hlog.
  exists s', rest. split; assumption.
Qed.

End AfterLoop.

(** C1 (the code at the failing input): the device answers the first poll
    with appIDLE; [dfu_flash] prints "Device still in Runtime Mode!", then
    calls the download engine and returns what it returns after any other
    transfer. *)
Theorem dfu_flash_downloads_in_runtime_mode :
  fst (dfu_flash 1 5 Worlds.runtime 1 (boot (-1) (-1))) = Val 6 /\
  trace (snd (dfu_flash 1 5 Worlds.runtime 1 (boot (-1) (-1)))) =
      [ EvLibusbInit 0; EvLoadFile (mk_dfu_file 65535 65535); EvProbe (-1) (-1) 1;
        EvOpen 0 true; EvClaim 0 0; EvSetAlt 0 0 0;
        EvControl (getstatus_setup Worlds.dev0) 6; EvUsleep 0;
        EvStderr "Device still in Runtime Mode!" [];
        EvDnload 2048 0; EvClose; EvLibusbExit ] /\
  filter is_dnload (trace (snd (dfu_flash 1 5 Worlds.runtime 1 (boot (-1) (-1)))))
    = [EvDnload 2048 0].
Proof. repeat split. Qed.

(** C3 (the code at the failing input): the interface descriptor advertises
    transfer size 0; [dfu_flash] prints "Transfer size must be specified",
    then calls the download engine with the control endpoint's packet size. *)
Theorem dfu_flash_downloads_without_transfer_size :
  fst (dfu_flash 1 5 Worlds.sizeless 1 (boot (-1) (-1))) = Val 6 /\
  trace (snd (dfu_flash 1 5 Worlds.sizeless 1 (boot (-1) (-1)))) =
      [ EvLibusbInit 0; EvLoadFile (mk_dfu_file 65535 65535); EvProbe (-1) (-1) 1;
        EvOpen 0 true; EvClaim 0 0; EvSetAlt 0 0 0;
        EvControl (getstatus_setup Worlds.dev_nosize) 6; EvUsleep 0;
        EvStderr "Transfer size must be specified" [];
        EvDnload 64 0; EvClose; EvLibusbExit ] /\
  filter is_dnload (trace (snd (dfu_flash 1 5 Worlds.sizeless 1 (boot (-1) (-1)))))
    = [EvDnload 64 0].
Proof. repeat split. Qed.

(** * Further properties *)

(** ** The other requests *)

Lemma dfu_get_state_run (w : world) (interface : Z) (s : state) :
  dfu_get_state w interface s =
    (Val (if fst (libusb_control_transfer w (transfers s) (getstate_setup interface)) <? 1
          then -1
          else byte_at (snd (libusb_control_transfer w (transfers s)
                               (getstate_setup interface))) 0),
     sent w (getstate_setup interface) s).
Proof.
  unfold dfu_get_state, bind. rewrite control_transfer_run.
  destruct (libusb_control_transfer w (transfers s) (getstate_setup interface)) as [r b].
  cbn [fst snd]. destruct (r <? 1); reflexivity.
Qed.

(** X1: [dfu_get_state] issues one GETSTATE transfer and returns -1 whenever
    fewer than one byte arrived (every transport error, whatever its code,
    and an empty answer alike), and the state byte otherwise: its result
    always lies between -1 and 255. *)
Theorem dfu_get_state_result
  (w : world) (interface : Z) (s : state) (result : Z) (buffer : list Z)
  (Hans : libusb_control_transfer w (transfers s) (getstate_setup interface)
          = (result, buffer))
  (Hbytes : Forall (fun b => 0 <= b < 256) buffer) :
  exists v s',
    dfu_get_state w interface s = (Val v, s') /\
    (result < 1 -> v = -1) /\
    (1 <= result -> v = byte_at buffer 0) /\
    -1 <= v <= 255 /\
    transfers s' = S (transfers s) /\
    log s' = EvControl (getstate_setup interface) result :: log s.
Proof.
  rewrite dfu_get_state_run, Hans. cbn [fst snd].
  pose proof (byte_at_range buffer 0 Hbytes) as Hb.
  do 2 eexists. split; [reflexivity|].
  destruct (Z.ltb_spec result 1).
  - repeat split; try lia. unfold sent. cbn. now rewrite Hans.
  - repeat split; try lia. unfold sent. cbn. now rewrite Hans.
Qed.

Lemma dfu_get_state_result_witness :
  exists v s',
    dfu_get_state (Worlds.plugged Worlds.dev0 (fun _ _ => (-7, []))) 0 (boot (-1) (-1))
      = (Val v, s') /\ v = -1.
Proof.
  destruct (dfu_get_state_result (Worlds.plugged Worlds.dev0 (fun _ _ => (-7, []))) 0
              (boot (-1) (-1)) (-7) [] eq_refl (Forall_nil _))
    as (v & s' & Hrun & Hlow & _).
  exists v, s'. split; [exact Hrun | apply Hlow; lia].
Defined.

Section AbortToIdleFacts.

Variables Q D : Z.
Variable w : world.
Variable milli_sleep : Z -> M unit.
Variable dif : dfu_if.

Lemma errx_run {A : Type} (eval : Z) (fmt : string) (args : list Z) (s : state) :
  @errx A eval fmt args s = (Exit eval, logged (EvErrx eval fmt args) s).
Proof. reflexivity. Qed.

(** The three ways through [dfu_abort_to_idle]. *)
Lemma dfu_abort_to_idle_unfold (s : state) :
  dfu_abort_to_idle Q D w milli_sleep dif s =
    (let a := fst (libusb_control_transfer w (transfers s) (abort_setup (intf dif))) in
     let s1 := sent w (abort_setup (intf dif)) s in
     let g := libusb_control_transfer w (transfers s1) (getstatus_setup dif) in
     let dst := status_of Q D dif (fst g) (snd g) in
     let s2 := sent w (getstatus_setup dif) s1 in
     if a <? 0 then
       (Exit EX_IOERR, logged (EvErrx EX_IOERR "Error sending dfu abort request" []) s1)
     else if fst g <? 0 then
       (Exit EX_IOERR, logged (EvErrx EX_IOERR "Error during abort get_status" []) s2)
     else if negb (bState dst =? DFU_STATE_dfuIDLE) then
       (Exit EX_IOERR,
        logged (EvErrx EX_IOERR "Failed to enter idle state on abort" []) s2)
     else (milli_sleep (bwPollTimeout dst) ;; ret (fst g)) s2).
Proof.
  cbv zeta. unfold dfu_abort_to_idle.
  unfold bind at 1. rewrite dfu_abort_run.
  unfold bind at 1.
  destruct (fst (libusb_control_transfer w (transfers s) (abort_setup (intf dif))) <? 0).
  { rewrite errx_run. reflexivity. }
  unfold ret at 1. unfold bind at 1. rewrite dfu_get_status_run.
  unfold bind at 1.
  destruct (fst (libusb_control_transfer w
                   (transfers (sent w (abort_setup (intf dif)) s))
                   (getstatus_setup dif)) <? 0).
  { rewrite errx_run. reflexivity. }
  unfold ret at 1. unfold bind at 1.
  destruct (negb (bState (status_of Q D dif
              (fst (libusb_control_transfer w
                      (transfers (sent w (abort_setup (intf dif)) s))
                      (getstatus_setup dif)))
              (snd (libusb_control_transfer w
                      (transfers (sent w (abort_setup (intf dif)) s))
                      (getstatus_setup dif)))) =? DFU_STATE_dfuIDLE)).
  { rewrite errx_run. reflexivity. }
  reflexivity.
Qed.

End AbortToIdleFacts.

(** X2: [dfu_abort_to_idle] sends ABORT and, if that was accepted, one
    GETSTATUS.  It returns only when the ABORT succeeded and the GETSTATUS
    delivered a complete answer showing dfuIDLE, and the value it returns is
    then 6.  When the ABORT fails it terminates the process with [EX_IOERR]
    without polling; when the state observed is not dfuIDLE (also after a
    failed or short GETSTATUS, which leaves the error state in the record)
    it terminates the process with [EX_IOERR] after those two transfers. *)
Theorem dfu_abort_to_idle_outcome
  (Q D : Z) (w : world) (milli_sleep : Z -> M unit) (dif : dfu_if)
  (s : state) (o : outcome Z) (s' : state)
  (Hrun : dfu_abort_to_idle Q D w milli_sleep dif s = (o, s')) :
  (forall r, o = Val r ->
     r = 6 /\
     0 <= fst (libusb_control_transfer w (transfers s) (abort_setup (intf dif))) /\
     observed Q D w dif (S (transfers s)) = DFU_STATE_dfuIDLE) /\
  (fst (libusb_control_transfer w (transfers s) (abort_setup (intf dif))) < 0 ->
     o = Exit EX_IOERR /\ transfers s' = S (transfers s)) /\
  (0 <= fst (libusb_control_transfer w (transfers s) (abort_setup (intf dif))) ->
   observed Q D w dif (S (transfers s)) <> DFU_STATE_dfuIDLE ->
     o = Exit EX_IOERR /\ transfers s' = S (S (transfers s))).
Proof.
  rewrite dfu_abort_to_idle_unfold in Hrun. cbv zeta in Hrun.
  change (transfers (sent w (abort_setup (intf dif)) s)) with (S (transfers s)) in Hrun.
  change (bState (status_of Q D dif
            (fst (libusb_control_transfer w (S (transfers s)) (getstatus_setup dif)))
            (snd (libusb_control_transfer w (S (transfers s)) (getstatus_setup dif)))))
    with (observed Q D w dif (S (transfers s))) in Hrun.
  assert (Hsix : observed Q D w dif (S (transfers s)) = DFU_STATE_dfuIDLE ->
                 fst (libusb_control_transfer w (S (transfers s)) (getstatus_setup dif)) = 6).
  { intros Hidle. apply (status_of_not_error Q D dif) with
      (buffer := snd (libusb_control_transfer w (S (transfers s)) (getstatus_setup dif))).
    change (observed Q D w dif (S (transfers s)) <> STATE_DFU_ERROR).
    rewrite Hidle. discriminate. }
  destruct (Z.ltb_spec (fst (libusb_control_transfer w (transfers s)
                               (abort_setup (intf dif)))) 0) as [Ha|Ha].
  { inversion Hrun; subst; clear Hrun. repeat split; try discriminate; try lia. }
  destruct (Z.ltb_spec (fst (libusb_control_transfer w (S (transfers s))
                               (getstatus_setup dif))) 0) as [Hg|Hg].
  { inversion Hrun; subst; clear Hrun. repeat split; try discriminate; try lia. }
  destruct (Z.eqb_spec (observed Q D w dif (S (transfers s))) DFU_STATE_dfuIDLE)
    as [Hidle|Hidle]; cbn [negb] in Hrun.
  - split; [|split; [lia | intros _ Hne; now elim Hne]].
    intros r Hr. subst o. unfold bind in Hrun.
    destruct (milli_sleep _ _) as [[[]|c|] s3]; try discriminate.
    cbn in Hrun. inversion Hrun; subst. rewrite (Hsix Hidle). auto.
  - inversion Hrun; subst; clear Hrun. repeat split; try discriminate; try lia.
Qed.

Lemma dfu_abort_to_idle_outcome_witness :
  fst (dfu_abort_to_idle 1 5 (Worlds.plugged Worlds.dev0 (Worlds.steady 0 2)) milli_usleep
                         Worlds.dev0 (boot (-1) (-1))) = Val 6 /\
  (6 = 6 /\
   0 <= fst (libusb_control_transfer (Worlds.plugged Worlds.dev0 (Worlds.steady 0 2))
               (transfers (boot (-1) (-1))) (abort_setup (intf Worlds.dev0))) /\
   observed 1 5 (Worlds.plugged Worlds.dev0 (Worlds.steady 0 2)) Worlds.dev0
            (S (transfers (boot (-1) (-1)))) = DFU_STATE_dfuIDLE).
Proof.
  split; [reflexivity|].
  exact (proj1 (dfu_abort_to_idle_outcome 1 5
                  (Worlds.plugged Worlds.dev0 (Worlds.steady 0 2)) milli_usleep
                  Worlds.dev0 (boot (-1) (-1)) _ _ (surjective_pairing _))
               6 eq_refl).
Defined.

(** ** Invariants of the status-poll loop *)

Section LoopInvariants.

Variables Q D : Z.
Variable w : world.
Variable d : dfu_if.

(** One pass through the loop, in terms of the states it goes through. *)
Lemma status_again_pass (fuel : nat) (s : state) :
  status_again Q D w (S fuel) d s =
    (let ans := libusb_control_transfer w (transfers s) (getstatus_setup d) in
     let st := observed Q D w d (transfers s) in
     if (st =? DFU_STATE_appIDLE) || (st =? DFU_STATE_appDETACH) then
       (Val (fst ans, status_of Q D d (fst ans) (snd ans)),
        logged (EvStderr "Device still in Runtime Mode!" []) (polled Q D w d s))
     else if st =? DFU_STATE_dfuERROR then
       status_again Q D w fuel d
         (requested w (clrstatus_setup (intf d)) "error clear_status" (polled Q D w d s))
     else if (st =? DFU_STATE_dfuDNLOAD_IDLE) || (st =? DFU_STATE_dfuUPLOAD_IDLE) then
       status_again Q D w fuel d
         (requested w (abort_setup (intf d)) "can't send DFU_ABORT" (polled Q D w d s))
     else (Val (fst ans, status_of Q D d (fst ans) (snd ans)), polled Q D w d s)).
Proof. rewrite status_again_unfold. reflexivity. Qed.

(** A property of the state that every step of a pass keeps is kept by the
    loop, however it ends. *)
Lemma status_again_keeps (P : state -> Prop) :
  (forall s, P s -> P (polled Q D w d s)) ->
  (forall s msg, P s -> P (logged (EvStderr msg []) s)) ->
  (forall s rq msg, bRequest rq <> DFU_GETSTATUS -> P s -> P (requested w rq msg s)) ->
  forall fuel s o s', P s -> status_again Q D w fuel d s = (o, s') -> P s'.
Proof.
  intros Hpoll Hmsg Hreq. induction fuel as [|fuel IH]; intros s o s' HP.
  - cbn. intros H; inversion H; subst; exact HP.
  - rewrite status_again_pass. cbv zeta.
    destruct ((observed Q D w d (transfers s) =? DFU_STATE_appIDLE)
              || (observed Q D w d (transfers s) =? DFU_STATE_appDETACH)).
    { intros H; inversion H; subst. apply Hmsg, Hpoll, HP. }
    destruct (observed Q D w d (transfers s) =? DFU_STATE_dfuERROR).
    { apply IH. apply Hreq; [discriminate | apply Hpoll, HP]. }
    destruct ((observed Q D w d (transfers s) =? DFU_STATE_dfuDNLOAD_IDLE)
              || (observed Q D w d (transfers s) =? DFU_STATE_dfuUPLOAD_IDLE)).
    { apply IH. apply Hreq; [discriminate | apply Hpoll, HP]. }
    intros H; inversion H; subst. apply Hpoll, HP.
Qed.

(** The loop returns only after a complete GETSTATUS answer: [ret] is 6. *)
Lemma status_again_returns_six (fuel : nat) (s : state) (r : Z) (st : dfu_status)
  (s' : state) :
  status_again Q D w fuel d s = (Val (r, st), s') -> r = 6.
Proof.
  revert s. induction fuel as [|fuel IH]; intros s; [cbn; discriminate|].
  rewrite status_again_pass. cbv zeta.
  assert (Hsix : observed Q D w d (transfers s) <> DFU_STATE_dfuERROR ->
                 fst (libusb_control_transfer w (transfers s) (getstatus_setup d)) = 6).
  { intros Hne. apply (status_of_not_error Q D d) with
      (buffer := snd (libusb_control_transfer w (transfers s) (getstatus_setup d))).
    exact Hne. }
  destruct (Z.eqb_spec (observed Q D w d (transfers s)) DFU_STATE_appIDLE) as [E0|E0];
    destruct (Z.eqb_spec (observed Q D w d (transfers s)) DFU_STATE_appDETACH) as [E1|E1];
    destruct (Z.eqb_spec (observed Q D w d (transfers s)) DFU_STATE_dfuERROR) as [E2|E2];
    cbn [orb]; try (intros H; inversion H; subst; apply Hsix; assumption);
    try (apply IH);
    try (intros H; inversion H; subst; apply Hsix; rewrite ?E0, ?E1; discriminate).
  destruct ((observed Q D w d (transfers s) =? DFU_STATE_dfuDNLOAD_IDLE)
            || (observed Q D w d (transfers s) =? DFU_STATE_dfuUPLOAD_IDLE));
    [apply IH | intros H; inversion H; subst; apply Hsix; assumption].
Qed.

(** The loop leaves the globals, [*finished] and the handle alone. *)
Lemma status_again_frame (fuel : nat) (s : state) (o : outcome (Z * dfu_status))
  (s' : state) :
  status_again Q D w fuel d s = (o, s') ->
  match_vendor s' = match_vendor s /\ match_product s' = match_product s /\
  dfu_root s' = dfu_root s /\ handle_open s' = handle_open s /\
  finished s' = finished s.
Proof.
  apply (status_again_keeps
           (fun s' => match_vendor s' = match_vendor s /\ match_product s' = match_product s /\
                      dfu_root s' = dfu_root s /\ handle_open s' = handle_open s /\
                      finished s' = finished s)).
  - intros s0 H. unfold polled. cbv zeta.
    destruct (fst (libusb_control_transfer w (transfers s0) (getstatus_setup d)) <? 0);
      exact H.
  - intros s0 msg H. exact H.
  - intros s0 rq msg _ H. unfold requested.
    destruct (fst (libusb_control_transfer w (transfers s0) rq) <? 0); exact H.
  - repeat split.
Qed.

(** The loop only adds control transfers, sleeps and messages to the log. *)
Lemma status_again_filter (f : event -> bool) :
  (forall rq r, f (EvControl rq r) = false) ->
  (forall u, f (EvUsleep u) = false) ->
  (forall fmt args, f (EvStderr fmt args) = false) ->
  forall fuel s o s',
    status_again Q D w fuel d s = (o, s') -> filter f (log s') = filter f (log s).
Proof.
  intros Hc Hu Hm fuel s.
  intros o s'.
  apply (status_again_keeps (fun s' => filter f (log s') = filter f (log s))).
  - intros s0 H. unfold polled. cbv zeta.
    destruct (fst (libusb_control_transfer w (transfers s0) (getstatus_setup d)) <? 0);
      cbn; rewrite ?Hu, ?Hm, ?Hc; exact H.
  - intros s0 msg H. cbn. rewrite Hm. exact H.
  - intros s0 rq msg _ H. unfold requested.
    destruct (fst (libusb_control_transfer w (transfers s0) rq) <? 0);
      cbn; rewrite ?Hm, ?Hc; exact H.
  - reflexivity.
Qed.

(** The loop never removes an entry from the log. *)
Lemma status_again_incl (fuel : nat) (s : state) (o : outcome (Z * dfu_status))
  (s' : state) :
  status_again Q D w fuel d s = (o, s') -> incl (log s) (log s').
Proof.
  apply (status_again_keeps (fun s' => incl (log s) (log s'))).
  - intros s0 H. unfold polled. cbv zeta.
    destruct (fst (libusb_control_transfer w (transfers s0) (getstatus_setup d)) <? 0);
      cbn; intros e He; cbn; auto 6.
  - intros s0 msg H e He. cbn. auto.
  - intros s0 rq msg _ H. unfold requested.
    destruct (fst (libusb_control_transfer w (transfers s0) rq) <? 0);
      cbn; intros e He; cbn; auto 6.
  - apply incl_refl.
Qed.

(** The loop sleeps after each of its GETSTATUS requests. *)
Lemma status_again_paced (fuel : nat) (s : state) (o : outcome (Z * dfu_status))
  (s' : state) :
  paced (log s) = true -> status_again Q D w fuel d s = (o, s') -> paced (log s') = true.
Proof.
  apply (status_again_keeps (fun s' => paced (log s') = true)).
  - intros s0 H. unfold polled, paced in *. cbv zeta.
    destruct (fst (libusb_control_transfer w (transfers s0) (getstatus_setup d)) <? 0);
      cbn; exact H.
  - intros s0 msg H. exact H.
  - intros s0 rq msg Hrq H. unfold requested, paced in *.
    apply Z.eqb_neq in Hrq.
    destruct (fst (libusb_control_transfer w (transfers s0) rq) <? 0);
      cbn; rewrite Hrq; exact H.
Qed.

End LoopInvariants.

(** ** The paths through [dfu_flash] *)

Lemma out_run (r : Z) (s : state) : out r s = (Val r, exited r s).
Proof. reflexivity. Qed.

Lemma recovery_state (Q D : Z) (w : world) (d : dfu_if) (st : dfu_status) (s1 : state) :
  (if negb (DFU_STATUS_OK =? bStatus st)
   then
     c <- dfu_clear_status w (intf d) ;;
     when (c <? 0) (fprintf_stderr "USB communication error" []) ;;
     '(g, status') <- dfu_get_status Q D w d ;;
     when (g <? 0) (fprintf_stderr "USB communication error" []) ;;
     when (negb (DFU_STATUS_OK =? bStatus status'))
          (fprintf_stderr "Status is not OK: %d" [bStatus status']) ;;
     usleep (umul32 (bwPollTimeout status') 1000)
   else ret tt) s1 = (Val tt, recovered Q D w d st s1).
Proof.
  unfold recovered. destruct (negb (DFU_STATUS_OK =? bStatus st)); [|reflexivity].
  unfold bind at 1. rewrite dfu_clear_status_run.
  unfold bind at 1. rewrite when_run.
  unfold bind at 1. rewrite dfu_get_status_run.
  unfold bind at 1. rewrite when_run.
  unfold bind at 1. rewrite when_run.
  reflexivity.
Qed.

(** When the poll loop has returned, [dfu_flash] runs to its end. *)
Lemma flash_device_run
  (Q D : Z) (w : world) (fuel : nat) (d : dfu_if) (s : state)
  (r : Z) (st : dfu_status) (s1 : state) :
  status_again Q D w fuel d s = (Val (r, st), s1) ->
  flash_device Q D w fuel d s =
    (Val (if dfuload_do_dnload w d (resolved_size d) <? 0 then EFAULT else r),
     delivered w d (if dfuload_do_dnload w d (resolved_size d) <? 0 then EFAULT else r)
               (recovered Q D w d st s1)).
Proof.
  intros Hloop. unfold flash_device. unfold bind at 1. rewrite Hloop.
  unfold bind at 1. rewrite recovery_state.
  unfold delivered, resolved_size.
  destruct (truthy (libusb_le16_to_cpu (wTransferSize d))) eqn:Hsz.
  - reflexivity.
  - apply negb_false_iff, Z.eqb_eq in Hsz. rewrite Hsz. reflexivity.
Qed.

(** The ways [dfu_flash] can end from the first poll on. *)
Lemma flash_device_elim
  (Q D : Z) (w : world) (fuel : nat) (d : dfu_if) (s : state)
  (P : outcome Z -> state -> Prop) :
  (forall st s1,
     status_again Q D w fuel d s = (Val (6, st), s1) ->
     repolls (bState st) = false ->
     forall r, r = (if dfuload_do_dnload w d (resolved_size d) <? 0 then EFAULT else 6) ->
     P (Val r) (delivered w d r (recovered Q D w d st s1))) ->
  (forall s1, status_again Q D w fuel d s = (OutOfFuel, s1) -> P OutOfFuel s1) ->
  forall o s', flash_device Q D w fuel d s = (o, s') -> P o s'.
Proof.
  intros Hval Hfuel o s'.
  destruct (status_again Q D w fuel d s) as [[[r st]|c|] s1] eqn:Hloop.
  - rewrite (flash_device_run Q D w fuel d s r st s1 Hloop).
    pose proof (status_again_returns_six Q D w d fuel s r st s1 Hloop) as ->.
    intros H; inversion H; subst. eapply Hval; eauto.
    eapply status_again_settled; eauto.
  - exfalso. exact (status_again_no_exit Q D w d fuel s c s1 Hloop).
  - unfold flash_device. unfold bind at 1. rewrite Hloop.
    intros H; inversion H; subst. apply Hfuel. reflexivity.
Qed.

(** The ways [dfu_flash] can end, with the state each leaves. *)
Lemma dfu_flash_elim
  (Q D : Z) (w : world) (mv mp : Z) (fuel : nat) (P : outcome Z -> state -> Prop) :
  (truthy (libusb_init w) = true ->
   P (Val EIO)
     (mk_state mv mp [] false 0 0%nat
        [ EvStderr "unable to initialize libusb: %s" [libusb_init w];
          EvLibusbInit (libusb_init w) ])) ->
  (libusb_init w = 0 -> probed w mv mp = [] ->
   P (Val ENODEV) (exited ENODEV (probed_state w mv mp))) ->
  (forall d d' l, libusb_init w = 0 -> probed w mv mp = d :: d' :: l ->
   P (Val ENODEV)
     (exited ENODEV
        (logged (EvStderr more_than_one_device [])
                (probed_state w mv mp)))) ->
  (forall d, libusb_init w = 0 -> probed w mv mp = [d] ->
   id_mismatch (dfu_load_file w) d = true ->
   P (Val EINVAL)
     (exited EINVAL
        (logged (EvStderr "Error: File ID %04x:%04x does not match device (%04x:%04x)"
                   [ idVendor (dfu_load_file w); idProduct (dfu_load_file w);
                     vendor d; product d ])
                (probed_state w mv mp)))) ->
  (forall d, libusb_init w = 0 -> probed w mv mp = [d] ->
   id_mismatch (dfu_load_file w) d = false ->
   truthy (fst (libusb_open w d)) || negb (snd (libusb_open w d)) = true ->
   P (Exit EX_IOERR)
     (logged (EvErrx EX_IOERR "Cannot open device: %s" [fst (libusb_open w d)])
             (opened w d (probed_state w mv mp)))) ->
  (forall d, libusb_init w = 0 -> probed w mv mp = [d] ->
   id_mismatch (dfu_load_file w) d = false ->
   libusb_open w d = (0, true) -> libusb_claim_interface w d < 0 ->
   P (Exit EX_IOERR)
     (logged (EvErrx EX_IOERR "Cannot claim interface - %s" [libusb_claim_interface w d])
        (logged (EvClaim (intf d) (libusb_claim_interface w d))
                (opened w d (probed_state w mv mp))))) ->
  (forall d, libusb_init w = 0 -> probed w mv mp = [d] ->
   id_mismatch (dfu_load_file w) d = false ->
   libusb_open w d = (0, true) -> 0 <= libusb_claim_interface w d ->
   libusb_set_interface_alt_setting w d < 0 ->
   P (Exit EX_IOERR)
     (logged (EvErrx EX_IOERR "Cannot set alternate interface: %s"
                [libusb_set_interface_alt_setting w d])
        (logged (EvSetAlt (intf d) (altsetting d) (libusb_set_interface_alt_setting w d))
           (logged (EvClaim (intf d) (libusb_claim_interface w d))
                   (opened w d (probed_state w mv mp)))))) ->
  (forall d, libusb_init w = 0 -> probed w mv mp = [d] ->
   id_mismatch (dfu_load_file w) d = false ->
   libusb_open w d = (0, true) -> 0 <= libusb_claim_interface w d ->
   0 <= libusb_set_interface_alt_setting w d ->
   forall o s', flash_device Q D w fuel d (ready_state w mv mp d) = (o, s') -> P o s') ->
  forall o s', dfu_flash Q D w fuel (boot mv mp) = (o, s') -> P o s'.
Proof.
  intros Hio Hnone Hmany Hmis Hopen Hclaim Halt Hgo o s' Hrun.
  destruct (truthy (libusb_init w)) eqn:Hinit.
  { rewrite (dfu_flash_init_failed Q D w mv mp fuel Hinit) in Hrun.
    inversion Hrun; subst. apply Hio. reflexivity. }
  apply negb_false_iff, Z.eqb_eq in Hinit.
  destruct (probed w mv mp) as [|d [|d' l]] eqn:Hfound.
  - rewrite (dfu_flash_after_probe Q D w mv mp fuel Hinit), Hfound in Hrun.
    rewrite out_run in Hrun.
    inversion Hrun; subst. apply Hnone; auto.
  - destruct (id_mismatch (dfu_load_file w) d) eqn:Hid.
    + rewrite (dfu_flash_after_probe Q D w mv mp fuel Hinit), Hfound, Hid in Hrun.
      inversion Hrun; subst. apply Hmis; auto.
    + destruct (truthy (fst (libusb_open w d)) || negb (snd (libusb_open w d))) eqn:Ho.
      { rewrite (dfu_flash_after_probe Q D w mv mp fuel Hinit), Hfound, Hid in Hrun.
        unfold bind at 1, open_device in Hrun.
        rewrite (surjective_pairing (libusb_open w d)) in Hrun.
        cbn -[flash_device probed_state libusb_open] in Hrun. rewrite Ho in Hrun.
        cbn -[flash_device probed_state libusb_open] in Hrun.
        inversion Hrun; subst. apply Hopen; auto. }
      assert (Hopen' : libusb_open w d = (0, true)).
      { destruct (libusb_open w d) as [ro h]. cbn [fst snd] in Ho.
        apply orb_false_elim in Ho as [Hr Hh].
        apply negb_false_iff, Z.eqb_eq in Hr. apply negb_false_iff in Hh.
        now subst. }
      destruct (Z.ltb_spec (libusb_claim_interface w d) 0) as [Hc|Hc].
      { rewrite (dfu_flash_after_probe Q D w mv mp fuel Hinit), Hfound, Hid in Hrun.
        unfold bind at 1, open_device in Hrun. rewrite Hopen' in Hrun.
        cbn -[flash_device probed_state] in Hrun.
        apply Z.ltb_lt in Hc. rewrite Hc in Hrun.
        cbn -[flash_device probed_state] in Hrun.
        inversion Hrun; subst. apply Z.ltb_lt in Hc.
        specialize (Hclaim d Hinit eq_refl Hid Hopen' Hc).
        unfold opened in Hclaim. rewrite Hopen' in Hclaim. exact Hclaim. }
      destruct (Z.ltb_spec (libusb_set_interface_alt_setting w d) 0) as [Ha|Ha].
      { rewrite (dfu_flash_after_probe Q D w mv mp fuel Hinit), Hfound, Hid in Hrun.
        unfold bind at 1, open_device in Hrun. rewrite Hopen' in Hrun.
        cbn -[flash_device probed_state] in Hrun.
        apply Z.ltb_ge in Hc. rewrite Hc in Hrun.
        cbn -[flash_device probed_state] in Hrun.
        apply Z.ltb_lt in Ha. rewrite Ha in Hrun.
        cbn -[flash_device probed_state] in Hrun.
        inversion Hrun; subst. apply Z.ltb_lt in Ha. apply Z.ltb_ge in Hc.
        specialize (Halt d Hinit eq_refl Hid Hopen' Hc Ha).
        unfold opened in Halt. rewrite Hopen' in Halt. exact Halt. }
      rewrite (dfu_flash_after_setup Q D w mv mp fuel d Hinit Hfound Hid Hopen' Hc Ha)
        in Hrun.
      eapply Hgo; eauto.
  - rewrite (dfu_flash_after_probe Q D w mv mp fuel Hinit), Hfound in Hrun.
    inversion Hrun; subst. eapply Hmany; eauto.
Qed.

(** ** What every run of [dfu_flash] satisfies *)

Lemma recovered_frame (Q D : Z) (w : world) (d : dfu_if) (st : dfu_status) (s : state) :
  match_vendor (recovered Q D w d st s) = match_vendor s /\
  match_product (recovered Q D w d st s) = match_product s /\
  dfu_root (recovered Q D w d st s) = dfu_root s /\
  handle_open (recovered Q D w d st s) = handle_open s /\
  finished (recovered Q D w d st s) = finished s.
Proof.
  unfold recovered, requested. cbv zeta.
  repeat match goal with
         | |- context [if ?b then _ else _] => destruct b
         end; repeat split.
Qed.

Lemma recovered_filter (Q D : Z) (w : world) (d : dfu_if) (st : dfu_status) (s : state)
  (f : event -> bool) :
  (forall rq r, f (EvControl rq r) = false) ->
  (forall u, f (EvUsleep u) = false) ->
  (forall fmt args, f (EvStderr fmt args) = false) ->
  filter f (log (recovered Q D w d st s)) = filter f (log s).
Proof.
  intros Hc Hu Hm. unfold recovered, requested. cbv zeta.
  repeat match goal with
         | |- context [if ?b then _ else _] => destruct b
         end; cbn; rewrite ?Hc, ?Hu, ?Hm; reflexivity.
Qed.

Lemma recovered_incl (Q D : Z) (w : world) (d : dfu_if) (st : dfu_status) (s : state) :
  incl (log s) (log (recovered Q D w d st s)).
Proof.
  unfold recovered, requested. cbv zeta.
  repeat match goal with
         | |- context [if ?b then _ else _] => destruct b
         end; cbn; intros e He; cbn; auto 10.
Qed.

Lemma recovered_paced (Q D : Z) (w : world) (d : dfu_if) (st : dfu_status) (s : state) :
  paced (log s) = true -> paced (log (recovered Q D w d st s)) = true.
Proof.
  unfold recovered, requested, paced. cbv zeta. intros H.
  repeat match goal with
         | |- context [if ?b then _ else _] => destruct b
         end; cbn; exact H.
Qed.

Lemma delivered_log (w : world) (d : dfu_if) (r : Z) (s : state) :
  log (delivered w d r s) =
    EvLibusbExit :: EvClose
      :: EvDnload (resolved_size d) (dfuload_do_dnload w d (resolved_size d))
      :: (if truthy (libusb_le16_to_cpu (wTransferSize d)) then []
          else [EvStderr "Transfer size must be specified" []])
      ++ log s.
Proof.
  unfold delivered. destruct (truthy (libusb_le16_to_cpu (wTransferSize d))); reflexivity.
Qed.

Lemma delivered_frame (w : world) (d : dfu_if) (r : Z) (s : state) :
  match_vendor (delivered w d r s) = match_vendor s /\
  match_product (delivered w d r s) = match_product s /\
  handle_open (delivered w d r s) = false /\
  finished (delivered w d r s) = (if truthy r then -1 else 1).
Proof.
  unfold delivered. destruct (truthy (libusb_le16_to_cpu (wTransferSize d)));
    repeat split.
Qed.

Lemma resolved_size_max (d : dfu_if) :
  resolved_size d = Z.max (wTransferSize d) (bMaxPacketSize0 d).
Proof.
  unfold resolved_size, libusb_le16_to_cpu. cbv zeta.
  destruct (Z.ltb_spec (wTransferSize d) (bMaxPacketSize0 d)); lia.
Qed.

(** Case analysis on the run of [dfu_flash], or of its part from the first
    poll on, for a goal that speaks of the outcome and of the final state. *)
Ltac by_flash_paths :=
  lazymatch goal with
  | |- forall o s', dfu_flash ?Q ?D ?w ?fuel (boot ?mv ?mp) = (o, s') -> @?P o s' =>
      apply (dfu_flash_elim Q D w mv mp fuel P)
  end.

Ltac by_device_paths :=
  lazymatch goal with
  | |- forall o s', flash_device ?Q ?D ?w ?fuel ?d ?s = (o, s') -> @?P o s' =>
      apply (flash_device_elim Q D w fuel d s P)
  end.

(** The values [dfu_flash] returns and leaves in [*finished]. *)
Lemma dfu_flash_results
  (Q D : Z) (w : world) (mv mp : Z) (fuel : nat) (o : outcome Z) (s' : state)
  (Hrun : dfu_flash Q D w fuel (boot mv mp) = (o, s')) :
  forall r, o = Val r ->
    In r flash_results /\ r <> 0 /\ finished s' <> 1 /\
    (finished s' = -1 \/
     (r = EIO /\ finished s' = 0 /\ truthy (libusb_init w) = true)).
Proof.
  revert o s' Hrun. by_flash_paths;
    try (intros; discriminate);
    try (intros;
         match goal with
         | Hr : Val _ = Val _ |- _ => inversion Hr; subst
         end; cbn; repeat split; auto 6; discriminate).
  intros d _ _ _ _ _ _. by_device_paths.
  - intros st s1 _ _ r' Hr' r Hr. inversion Hr; subst r'. clear Hr.
    destruct (delivered_frame w d r (recovered Q D w d st s1)) as (_ & _ & _ & Hfin).
    rewrite Hfin.
    destruct (dfuload_do_dnload w d (resolved_size d) <? 0); subst r; cbn;
      repeat split; auto 8; discriminate.
  - intros; discriminate.
Qed.




(** X4: in every run of [dfu_flash] the download engine is called at most
    once, and only for the one device found, with the larger of the
    advertised transfer size and the control endpoint's packet size (so never
    with less than [bMaxPacketSize0]).  It has been called exactly in the runs
    that return [EFAULT] or 6. *)
Theorem dfu_flash_downloads_at_most_once
  (Q D : Z) (w : world) (mv mp : Z) (fuel : nat) (o : outcome Z) (s' : state)
  (Hrun : dfu_flash Q D w fuel (boot mv mp) = (o, s')) :
  ((filter is_dnload (log s') = [] /\ forall r, o = Val r -> r <> EFAULT /\ r <> 6) \/
   (exists d,
      probed w mv mp = [d] /\
      bMaxPacketSize0 d <= Z.max (wTransferSize d) (bMaxPacketSize0 d) /\
      filter is_dnload (log s') =
        [ EvDnload (Z.max (wTransferSize d) (bMaxPacketSize0 d))
                   (dfuload_do_dnload w d (Z.max (wTransferSize d) (bMaxPacketSize0 d))) ] /\
      exists r, o = Val r /\ (r = EFAULT \/ r = 6))).
Proof.
  revert o s' Hrun. by_flash_paths;
    try (intros; left; split; [reflexivity | intros r Hr; inversion Hr; subst; split; discriminate]).
  intros d _ Hfound _ _ _ _. by_device_paths.
  - intros st s1 Hloop _ r Hr. right. exists d. split; [exact Hfound|].
    split; [lia|]. split.
    + rewrite delivered_log, <- resolved_size_max.
      cbn [filter is_dnload]. rewrite filter_app.
      rewrite (recovered_filter Q D w d st s1 is_dnload) by reflexivity.
      rewrite (status_again_filter Q D w d is_dnload) with (1 := fun _ _ => eq_refl)
        (2 := fun _ => eq_refl) (3 := fun _ _ => eq_refl) (4 := Hloop).
      destruct (truthy (libusb_le16_to_cpu (wTransferSize d))); reflexivity.
    + exists r. split; [reflexivity|].
      destruct (dfuload_do_dnload w d (resolved_size d) <? 0); auto.
  - intros s1 Hloop. left. split; [|intros r Hr; discriminate].
    rewrite (status_again_filter Q D w d is_dnload) with (1 := fun _ _ => eq_refl)
      (2 := fun _ => eq_refl) (3 := fun _ _ => eq_refl) (4 := Hloop).
    reflexivity.
Qed.

Lemma dfu_flash_downloads_at_most_once_witness :
  (filter is_dnload
     (log (snd (dfu_flash 1 5 Worlds.sizeless 1 (boot (-1) (-1))))) = [] /\
   forall r, fst (dfu_flash 1 5 Worlds.sizeless 1 (boot (-1) (-1))) = Val r ->
             r <> EFAULT /\ r <> 6) \/
  (exists d,
     probed Worlds.sizeless (-1) (-1) = [d] /\
     bMaxPacketSize0 d <= Z.max (wTransferSize d) (bMaxPacketSize0 d) /\
     filter is_dnload (log (snd (dfu_flash 1 5 Worlds.sizeless 1 (boot (-1) (-1))))) =
       [ EvDnload (Z.max (wTransferSize d) (bMaxPacketSize0 d))
           (dfuload_do_dnload Worlds.sizeless d
              (Z.max (wTransferSize d) (bMaxPacketSize0 d))) ] /\
     exists r, fst (dfu_flash 1 5 Worlds.sizeless 1 (boot (-1) (-1))) = Val r /\
               (r = EFAULT \/ r = 6)).
Proof.
  exact (dfu_flash_downloads_at_most_once 1 5 Worlds.sizeless (-1) (-1) 1 _ _
           (surjective_pairing _)).
Defined.

Lemma id_mismatch_false_iff (file : dfu_file) (d : dfu_if) :
  id_mismatch file d = false <->
  (idVendor file = 65535 \/ idVendor file = vendor d) /\
  (idProduct file = 65535 \/ idProduct file = product d).
Proof.
  unfold id_mismatch.
  destruct (Z.eqb_spec (idVendor file) 65535), (Z.eqb_spec (idVendor file) (vendor d)),
    (Z.eqb_spec (idProduct file) 65535), (Z.eqb_spec (idProduct file) (product d));
    cbn; intuition congruence.
Qed.

Lemma delivered_incl (w : world) (d : dfu_if) (r : Z) (s : state) :
  incl (log s) (log (delivered w d r s)).
Proof.
  rewrite delivered_log. intros e He. do 3 right. apply in_or_app. now right.
Qed.

(** X5: a run of [dfu_flash] calls [libusb_open] exactly when [libusb_init]
    succeeded, the enumerator found exactly one device, and each id the file
    declares is the wildcard 0xFFFF or the device's id. *)
Theorem dfu_flash_opens_iff
  (Q D : Z) (w : world) (mv mp : Z) (fuel : nat) (o : outcome Z) (s' : state)
  (Hrun : dfu_flash Q D w fuel (boot mv mp) = (o, s')) :
  (exists ro h, In (EvOpen ro h) (log s')) <->
  (libusb_init w = 0 /\
   exists d, probed w mv mp = [d] /\
     (idVendor (dfu_load_file w) = 65535 \/ idVendor (dfu_load_file w) = vendor d) /\
     (idProduct (dfu_load_file w) = 65535 \/ idProduct (dfu_load_file w) = product d)).
Proof.
  revert o s' Hrun. by_flash_paths.
  - intros Hinit. split.
    + intros (ro & h & Hin). cbn in Hin. intuition discriminate.
    + intros (H0 & _). rewrite H0 in Hinit. discriminate.
  - intros _ Hfound. split.
    + intros (ro & h & Hin). cbn in Hin. intuition discriminate.
    + intros (_ & d & Hd & _). congruence.
  - intros d d' l _ Hfound. split.
    + intros (ro & h & Hin). cbn in Hin. intuition discriminate.
    + intros (_ & d0 & Hd & _). congruence.
  - intros d _ Hfound Hid. split.
    + intros (ro & h & Hin). cbn in Hin. intuition discriminate.
    + intros (_ & d0 & Hd & Hcompat). rewrite Hfound in Hd. inversion Hd; subst d0.
      apply id_mismatch_false_iff in Hcompat. congruence.
  - intros d Hinit Hfound Hid _. apply id_mismatch_false_iff in Hid. split.
    + intros _. split; [exact Hinit|]. exists d. tauto.
    + intros _. do 2 eexists. cbn. right. left. reflexivity.
  - intros d Hinit Hfound Hid _ _. apply id_mismatch_false_iff in Hid. split.
    + intros _. split; [exact Hinit|]. exists d. tauto.
    + intros _. do 2 eexists. cbn. do 2 right. left. reflexivity.
  - intros d Hinit Hfound Hid _ _ _. apply id_mismatch_false_iff in Hid. split.
    + intros _. split; [exact Hinit|]. exists d. tauto.
    + intros _. do 2 eexists. cbn. do 3 right. left. reflexivity.
  - intros d Hinit Hfound Hid _ _ _. apply id_mismatch_false_iff in Hid.
    assert (Hopen : In (EvOpen 0 true) (log (ready_state w mv mp d))).
    { cbn. auto. }
    by_device_paths.
    + intros st s1 Hloop _ r _. split.
      * intros _. split; [exact Hinit|]. exists d. tauto.
      * intros _. exists 0, true.
        apply delivered_incl, recovered_incl.
        exact (status_again_incl Q D w d fuel _ _ _ Hloop _ Hopen).
    + intros s1 Hloop. split.
      * intros _. split; [exact Hinit|]. exists d. tauto.
      * intros _. exists 0, true.
        exact (status_again_incl Q D w d fuel _ _ _ Hloop _ Hopen).
Qed.

Lemma dfu_flash_opens_iff_witness :
  (exists ro h,
     In (EvOpen ro h)
        (log (snd (dfu_flash 1 5 (Worlds.enumerated 1155 22314 [Worlds.dev0]) 1
                             (boot (-1) (-1)))))) <->
  (libusb_init (Worlds.enumerated 1155 22314 [Worlds.dev0]) = 0 /\
   exists d, probed (Worlds.enumerated 1155 22314 [Worlds.dev0]) (-1) (-1) = [d] /\
     (idVendor (dfu_load_file (Worlds.enumerated 1155 22314 [Worlds.dev0])) = 65535 \/
      idVendor (dfu_load_file (Worlds.enumerated 1155 22314 [Worlds.dev0])) = vendor d) /\
     (idProduct (dfu_load_file (Worlds.enumerated 1155 22314 [Worlds.dev0])) = 65535 \/
      idProduct (dfu_load_file (Worlds.enumerated 1155 22314 [Worlds.dev0])) = product d)).
Proof.
  exact (dfu_flash_opens_iff 1 5 (Worlds.enumerated 1155 22314 [Worlds.dev0]) (-1) (-1) 1
           _ _ (surjective_pairing _)).
Defined.

(** X6: however a run of [dfu_flash] ends, each GETSTATUS it has issued (in
    the poll loop and in the recovery attempt after it) is followed by a
    [usleep] before the next request, the download or the end of the run;
    only messages come in between. *)
Theorem dfu_flash_sleeps_after_each_poll
  (Q D : Z) (w : world) (mv mp : Z) (fuel : nat) (o : outcome Z) (s' : state)
  (Hrun : dfu_flash Q D w fuel (boot mv mp) = (o, s')) :
  paced (log s') = true.
Proof.
  revert o s' Hrun. by_flash_paths; try (intros; reflexivity).
  intros d _ _ _ _ _ _. by_device_paths.
  - intros st s1 Hloop _ r _. unfold paced. rewrite delivered_log.
    cbn [paced_from].
    assert (Hp : paced (log (recovered Q D w d st s1)) = true).
    { apply recovered_paced.
      exact (status_again_paced Q D w d fuel (ready_state w mv mp d) _ _ eq_refl Hloop). }
    destruct (truthy (libusb_le16_to_cpu (wTransferSize d))); exact Hp.
  - intros s1 Hloop. exact (status_again_paced Q D w d fuel (ready_state w mv mp d) _ _ eq_refl Hloop).
Qed.

Lemma dfu_flash_sleeps_after_each_poll_witness :
  paced (log (snd (dfu_flash 1 5 (Worlds.plugged Worlds.dev0 (Worlds.recovering 2)) 3
                             (boot (-1) (-1))))) = true.
Proof.
  exact (dfu_flash_sleeps_after_each_poll 1 5
           (Worlds.plugged Worlds.dev0 (Worlds.recovering 2)) (-1) (-1) 3
           _ _ (surjective_pairing _)).
Defined.

Lemma adopted_set (criterion declared : Z) : 0 <= criterion -> adopted criterion declared = criterion.
Proof.
  intros H. unfold adopted. destruct (Z.ltb_spec criterion 0); [lia | reflexivity].
Qed.

(** X7: the match criteria.  A run of [dfu_flash] that gets past
    [libusb_init] probes with, and leaves in [match_vendor] and
    [match_product], the caller's criterion where one was set, and otherwise
    the id the file declares unless that is the wildcard; a criterion that
    was set (not negative) is never replaced, whatever the file declares.
    When [libusb_init] fails the criteria are left as they were. *)
Theorem dfu_flash_match_criteria
  (Q D : Z) (w : world) (mv mp : Z) (fuel : nat) (o : outcome Z) (s' : state)
  (Hrun : dfu_flash Q D w fuel (boot mv mp) = (o, s')) :
  (libusb_init w = 0 ->
   match_vendor s' = adopted mv (idVendor (dfu_load_file w)) /\
   match_product s' = adopted mp (idProduct (dfu_load_file w)) /\
   In (EvProbe (match_vendor s') (match_product s') (List.length (probed w mv mp)))
      (log s')) /\
  (truthy (libusb_init w) = true -> match_vendor s' = mv /\ match_product s' = mp) /\
  (0 <= mv -> match_vendor s' = mv) /\
  (0 <= mp -> match_product s' = mp).
Proof.
  assert (Hmain :
    (libusb_init w = 0 ->
     match_vendor s' = adopted mv (idVendor (dfu_load_file w)) /\
     match_product s' = adopted mp (idProduct (dfu_load_file w)) /\
     In (EvProbe (match_vendor s') (match_product s') (List.length (probed w mv mp)))
        (log s')) /\
    (truthy (libusb_init w) = true -> match_vendor s' = mv /\ match_product s' = mp)).
  { revert o s' Hrun. by_flash_paths;
      try solve [intros; split; [intros; cbn; repeat split; auto 8
                                | intros Ht;
                                  match goal with
                                  | H0 : libusb_init w = 0 |- _ =>
                                      rewrite H0 in Ht; discriminate
                                  end]].
    - intros Hinit. split; [|intros _; split; reflexivity].
      intros H0. rewrite H0 in Hinit. discriminate.
    - intros d Hinit Hfound _ _ _ _.
      assert (Hprobe : In (EvProbe (adopted mv (idVendor (dfu_load_file w)))
                                   (adopted mp (idProduct (dfu_load_file w)))
                                   (List.length (probed w mv mp)))
                          (log (ready_state w mv mp d))).
      { rewrite Hfound. cbn. auto 6. }
      by_device_paths.
      + intros st s1 Hloop _ r _.
        destruct (status_again_frame Q D w d fuel _ _ _ Hloop) as (Hv & Hp & _).
        destruct (recovered_frame Q D w d st s1) as (Hv1 & Hp1 & _).
        destruct (delivered_frame w d r (recovered Q D w d st s1)) as (Hv2 & Hp2 & _).
        split; [|intros Ht; rewrite Hinit in Ht; discriminate].
        intros _. rewrite Hv2, Hp2, Hv1, Hp1, Hv, Hp. cbn [ready_state match_vendor match_product].
        repeat split.
        apply delivered_incl, recovered_incl.
        exact (status_again_incl Q D w d fuel _ _ _ Hloop _ Hprobe).
      + intros s1 Hloop.
        destruct (status_again_frame Q D w d fuel _ _ _ Hloop) as (Hv & Hp & _).
        split; [|intros Ht; rewrite Hinit in Ht; discriminate].
        intros _. rewrite Hv, Hp. cbn [ready_state match_vendor match_product].
        repeat split.
        exact (status_again_incl Q D w d fuel _ _ _ Hloop _ Hprobe). }
  destruct Hmain as [H0 H1]. split; [exact H0|]. split; [exact H1|].
  split; intros Hset.
  - destruct (truthy (libusb_init w)) eqn:Hinit.
    + apply H1. reflexivity.
    + apply negb_false_iff, Z.eqb_eq in Hinit.
      destruct (H0 Hinit) as (Hv & _). rewrite Hv. apply adopted_set, Hset.
  - destruct (truthy (libusb_init w)) eqn:Hinit.
    + apply H1. reflexivity.
    + apply negb_false_iff, Z.eqb_eq in Hinit.
      destruct (H0 Hinit) as (_ & Hp & _). rewrite Hp. apply adopted_set, Hset.
Qed.

Lemma dfu_flash_match_criteria_witness :
  match_vendor (snd (dfu_flash 1 5 (Worlds.enumerated 1155 22314 [Worlds.dev0]) 1
                               (boot 1155 57105))) = 1155 /\
  match_product (snd (dfu_flash 1 5 (Worlds.enumerated 1155 22314 [Worlds.dev0]) 1
                                (boot 1155 57105))) = 57105.
Proof.
  destruct (dfu_flash_match_criteria 1 5 (Worlds.enumerated 1155 22314 [Worlds.dev0])
              1155 57105 1 _ _ (surjective_pairing _)) as (_ & _ & Hv & Hp).
  split; [apply Hv | apply Hp]; lia.
Defined.

(** ** Accounting of the poll loop *)

Section LoopAccounting.

Variables Q D : Z.
Variable w : world.
Variable d : dfu_if.

Lemma polled_counts (s : state) :
  transfers (polled Q D w d s) = S (transfers s) /\
  clrstatus_sent (log (polled Q D w d s)) = clrstatus_sent (log s) /\
  abort_sent (log (polled Q D w d s)) = abort_sent (log s).
Proof.
  unfold polled. cbv zeta.
  destruct (fst (libusb_control_transfer w (transfers s) (getstatus_setup d)) <? 0);
    repeat split.
Qed.

Lemma requested_counts (rq : setup) (msg : string) (s : state) :
  transfers (requested w rq msg s) = S (transfers s) /\
  clrstatus_sent (log (requested w rq msg s))
    = ((if (bRequest rq =? DFU_CLRSTATUS)%Z then 1 else 0) + clrstatus_sent (log s))%nat /\
  abort_sent (log (requested w rq msg s))
    = ((if (bRequest rq =? DFU_ABORT)%Z then 1 else 0) + abort_sent (log s))%nat.
Proof.
  unfold requested, clrstatus_sent, abort_sent.
  destruct (fst (libusb_control_transfer w (transfers s) rq) <? 0); cbn;
    destruct (bRequest rq =? DFU_CLRSTATUS), (bRequest rq =? DFU_ABORT); repeat split.
Qed.

Lemma status_again_accounts (k extra : nat) :
  forall s,
    (forall i, (i < k)%nat -> repolls (observed Q D w d (transfers s + 2 * i)) = true) ->
    repolls (observed Q D w d (transfers s + 2 * k)) = false ->
    exists st s',
      status_again Q D w (S k + extra) d s = (Val (6, st), s') /\
      bState st = observed Q D w d (transfers s + 2 * k) /\
      transfers s' = (transfers s + 2 * k + 1)%nat /\
      clrstatus_sent (log s') =
        (clrstatus_sent (log s) + observations is_error_state Q D w d (transfers s) k)%nat /\
      abort_sent (log s') =
        (abort_sent (log s) + observations is_stale_state Q D w d (transfers s) k)%nat.
Proof.
  induction k as [|k IH]; intros s Hback Hend.
  - replace (transfers s + 2 * 0)%nat with (transfers s) in * by lia.
    destruct (status_again Q D w (1 + extra) d s) as [[[r st]|c|] s'] eqn:Hrun.
    + pose proof (status_again_returns_six Q D w d _ _ _ _ _ Hrun) as ->.
      exists st, s'. split; [reflexivity|].
      change (1 + extra)%nat with (S extra) in Hrun.
      rewrite status_again_pass in Hrun. cbv zeta in Hrun.
      unfold repolls in Hend. apply orb_false_elim in Hend as [Hend Hup].
      apply orb_false_elim in Hend as [Herr Hdn]. rewrite Herr, Hdn, Hup in Hrun.
      cbn [orb] in Hrun.
      destruct (polled_counts s) as (Ht & Hc & Ha).
      destruct ((observed Q D w d (transfers s) =? DFU_STATE_appIDLE)
                || (observed Q D w d (transfers s) =? DFU_STATE_appDETACH));
        inversion Hrun; subst; cbn [observations Nat.add];
        change (log (logged (EvStderr "Device still in Runtime Mode!" [])
                            (polled Q D w d s)))
          with (EvStderr "Device still in Runtime Mode!" [] :: log (polled Q D w d s));
        unfold clrstatus_sent, abort_sent in *; cbn [filter is_clrstatus is_abort];
        cbn [transfers logged];
        repeat split; try lia; reflexivity.
    + exfalso. exact (status_again_no_exit Q D w d _ _ _ _ Hrun).
    + exfalso. change (1 + extra)%nat with (S extra) in Hrun.
      destruct (status_again_leaves Q D w d extra s Hend) as (r & st & s0 & Hr & _).
      congruence.
  - pose proof (Hback 0%nat ltac:(lia)) as H0.
    replace (transfers s + 2 * 0)%nat with (transfers s) in H0 by lia.
    change (S (S k) + extra)%nat with (S (S k + extra)).
    rewrite status_again_pass. cbv zeta.
    destruct (polled_counts s) as (Ht & Hc & Ha).
    assert (Hnext : forall rq msg,
              transfers (requested w rq msg (polled Q D w d s)) = S (S (transfers s))).
    { intros rq msg. destruct (requested_counts rq msg (polled Q D w d s)) as (H & _).
      rewrite H, Ht. reflexivity. }
    assert (Hshift : forall s2, transfers s2 = S (S (transfers s)) ->
              exists st s',
                status_again Q D w (S k + extra) d s2 = (Val (6, st), s') /\
                bState st = observed Q D w d (transfers s + 2 * S k) /\
                transfers s' = (transfers s + 2 * S k + 1)%nat /\
                clrstatus_sent (log s') =
                  (clrstatus_sent (log s2)
                   + observations is_error_state Q D w d (S (S (transfers s))) k)%nat /\
                abort_sent (log s') =
                  (abort_sent (log s2)
                   + observations is_stale_state Q D w d (S (S (transfers s))) k)%nat).
    { intros s2 Hs2. destruct (IH s2) as (st & s' & Hr & Hst & Htr & Hcl & Hab).
      - intros i Hi. replace (transfers s2 + 2 * i)%nat with (transfers s + 2 * S i)%nat by lia.
        apply Hback. lia.
      - now replace (transfers s2 + 2 * k)%nat with (transfers s + 2 * S k)%nat by lia.
      - exists st, s'. rewrite Hs2 in Hcl, Hab. repeat split; try assumption.
        + rewrite Hst. f_equal. lia.
        + lia. }
    unfold repolls in H0. cbn [observations].
    destruct (Z.eqb_spec (observed Q D w d (transfers s)) DFU_STATE_dfuERROR) as [E|E].
    + rewrite E.
      change (is_error_state DFU_STATE_dfuERROR) with true.
      change (is_stale_state DFU_STATE_dfuERROR) with false.
      cbn [DFU_STATE_dfuERROR DFU_STATE_appIDLE DFU_STATE_appDETACH
           DFU_STATE_dfuDNLOAD_IDLE DFU_STATE_dfuUPLOAD_IDLE Z.eqb Pos.eqb orb].
      destruct (Hshift _ (Hnext (clrstatus_setup (intf d)) "error clear_status"))
        as (st & s' & Hr & Hst & Htr & Hcl & Hab).
      destruct (requested_counts (clrstatus_setup (intf d)) "error clear_status"
                  (polled Q D w d s)) as (_ & Hc2 & Ha2).
      exists st, s'. split; [exact Hr|]. split; [exact Hst|]. split; [exact Htr|].
      rewrite Hcl, Hab, Hc2, Ha2, Hc, Ha. cbn. split; lia.
    + cbn [orb] in H0.
      assert (Hrt : (observed Q D w d (transfers s) =? DFU_STATE_appIDLE)
                    || (observed Q D w d (transfers s) =? DFU_STATE_appDETACH) = false).
      { apply orb_true_iff in H0 as [H0|H0]; apply Z.eqb_eq in H0; rewrite H0; reflexivity. }
      assert (He : is_error_state (observed Q D w d (transfers s)) = false)
        by (apply Z.eqb_neq; exact E).
      assert (Hs : is_stale_state (observed Q D w d (transfers s)) = true) by exact H0.
      rewrite Hrt, H0, He, Hs.
      destruct (Hshift _ (Hnext (abort_setup (intf d)) "can't send DFU_ABORT"))
        as (st & s' & Hr & Hst & Htr & Hcl & Hab).
      destruct (requested_counts (abort_setup (intf d)) "can't send DFU_ABORT"
                  (polled Q D w d s)) as (_ & Hc2 & Ha2).
      exists st, s'. split; [exact Hr|]. split; [exact Hst|]. split; [exact Htr|].
      rewrite Hcl, Hab, Hc2, Ha2, Hc, Ha. cbn. split; lia.
Qed.

End LoopAccounting.

(** X8: the poll loop answers each state it observes with one request.  For
    every [k], when the first [k] polls observe states on which the [switch]
    jumps back (dfuERROR, dfuDNLOAD-IDLE, dfuUPLOAD-IDLE, in any order) and the
    next poll observes another state, the loop returns after exactly [k + 1]
    GETSTATUS requests with [ret] at 6 and that last state, having sent one
    CLRSTATUS for each dfuERROR it observed and one ABORT for each
    dfuDNLOAD-IDLE or dfuUPLOAD-IDLE, and nothing else. *)
Theorem status_again_one_request_per_state
  (Q D : Z) (w : world) (d : dfu_if) (k extra : nat) (s : state)
  (Hback : forall i, (i < k)%nat ->
             repolls (observed Q D w d (transfers s + 2 * i)) = true)
  (Hend : repolls (observed Q D w d (transfers s + 2 * k)) = false) :
  exists st s',
    status_again Q D w (S k + extra) d s = (Val (6, st), s') /\
    bState st = observed Q D w d (transfers s + 2 * k) /\
    transfers s' = (transfers s + 2 * k + 1)%nat /\
    clrstatus_sent (log s') =
      (clrstatus_sent (log s) + observations is_error_state Q D w d (transfers s) k)%nat /\
    abort_sent (log s') =
      (abort_sent (log s) + observations is_stale_state Q D w d (transfers s) k)%nat.
Proof. apply status_again_accounts; assumption. Qed.

Lemma status_again_one_request_per_state_witness :
  exists st s',
    status_again 1 5 (Worlds.plugged Worlds.dev0 relapsing) 3 Worlds.dev0 (boot (-1) (-1))
      = (Val (6, st), s') /\
    bState st = DFU_STATE_dfuIDLE /\
    clrstatus_sent (log s') = 1%nat /\
    abort_sent (log s') = 1%nat.
Proof.
  destruct (status_again_one_request_per_state 1 5
              (Worlds.plugged Worlds.dev0 relapsing) Worlds.dev0 2 0 (boot (-1) (-1))
              (fun i Hi =>
                 match i as j return
                   (j < 2)%nat ->
                   repolls (observed 1 5 (Worlds.plugged Worlds.dev0 relapsing)
                                     Worlds.dev0 (0 + 2 * j)) = true
                 with
                 | O => fun _ => eq_refl
                 | S O => fun _ => eq_refl
                 | S (S j) => fun H => ltac:(lia)
                 end Hi)
              eq_refl)
    as (st & s' & Hrun & Hst & _ & Hc & Ha).
  exists st, s'. repeat split; assumption.
Defined.

(** ** The recovery attempt *)

(** X9: when the poll loop has returned, [dfu_flash] always goes on to the
    download engine.  If the status of the last poll is not OK it first sends
    exactly one CLRSTATUS and one GETSTATUS, and it takes no decision on their
    outcome: whatever they return, the download engine is called next, once,
    and [dfu_flash] returns [EFAULT] when the engine's result is negative and
    [ret] otherwise.  If the status is OK it sends nothing more. *)
Theorem flash_device_recovers_once
  (Q D : Z) (w : world) (fuel : nat) (d : dfu_if) (s : state)
  (r : Z) (st : dfu_status) (s1 : state)
  (Hloop : status_again Q D w fuel d s = (Val (r, st), s1)) :
  exists s',
    flash_device Q D w fuel d s =
      (Val (if dfuload_do_dnload w d (resolved_size d) <? 0 then EFAULT else r), s') /\
    transfers s' = (transfers s1 + (if (bStatus st =? DFU_STATUS_OK)%Z then 0 else 2))%nat /\
    clrstatus_sent (log s') =
      (clrstatus_sent (log s1) + (if (bStatus st =? DFU_STATUS_OK)%Z then 0 else 1))%nat /\
    abort_sent (log s') = abort_sent (log s1) /\
    filter is_dnload (log s') =
      EvDnload (resolved_size d) (dfuload_do_dnload w d (resolved_size d))
        :: filter is_dnload (log s1).
Proof.
  rewrite (flash_device_run Q D w fuel d s r st s1 Hloop).
  eexists. split; [reflexivity|].
  rewrite delivered_log.
  assert (Htr : transfers (delivered w d
                   (if dfuload_do_dnload w d (resolved_size d) <? 0 then EFAULT else r)
                   (recovered Q D w d st s1))
                = transfers (recovered Q D w d st s1)).
  { unfold delivered. destruct (truthy (libusb_le16_to_cpu (wTransferSize d))); reflexivity. }
  rewrite Htr. unfold clrstatus_sent, abort_sent.
  cbn [filter is_clrstatus is_abort is_dnload]. rewrite !filter_app.
  rewrite (recovered_filter Q D w d st s1 is_dnload) by reflexivity.
  rewrite (Z.eqb_sym (bStatus st) DFU_STATUS_OK).
  unfold recovered, requested. cbv zeta.
  destruct (DFU_STATUS_OK =? bStatus st); cbn [negb];
    destruct (truthy (libusb_le16_to_cpu (wTransferSize d)));
    repeat match goal with
           | |- context [if ?b then _ else _] => destruct b
           end;
    cbn; repeat split; lia.
Qed.

Lemma flash_device_recovers_once_witness :
  exists s',
    flash_device 1 5 (Worlds.plugged Worlds.dev0 (Worlds.steady 3 2)) 1 Worlds.dev0
                 (boot (-1) (-1)) = (Val 6, s') /\
    transfers s' = 3%nat /\
    clrstatus_sent (log s') = 1%nat.
Proof.
  destruct (flash_device_recovers_once 1 5
              (Worlds.plugged Worlds.dev0 (Worlds.steady 3 2)) 1 Worlds.dev0
              (boot (-1) (-1)) 6 _ _ eq_refl)
    as (s' & Hrun & Htr & Hc & _).
  exists s'. repeat split; assumption.
Defined.

(** ** Decoding loses nothing *)

(** X10: without the poll-timeout quirk, decoding a complete GETSTATUS
    answer loses nothing: the decoded poll timeout is below 2^24, and the six
    bytes of the answer are the wire image of the decoded record (status,
    poll timeout in three bytes with the low one first, state, string
    index).  Two different complete answers decode to different records. *)
Theorem status_of_round_trip
  (Q D : Z) (dif : dfu_if) (buffer : list Z)
  (Hquirk : Z.land (quirks dif) Q = 0)
  (Hlen : List.length buffer = 6%nat)
  (Hbytes : Forall (fun b => 0 <= b < 256) buffer) :
  0 <= bwPollTimeout (status_of Q D dif 6 buffer) < 2 ^ 24 /\
  status_bytes (status_of Q D dif 6 buffer) = buffer /\
  (forall buffer',
     List.length buffer' = 6%nat -> Forall (fun b => 0 <= b < 256) buffer' ->
     status_of Q D dif 6 buffer' = status_of Q D dif 6 buffer -> buffer' = buffer).
Proof.
  assert (Hdec : forall b, List.length b = 6%nat -> Forall (fun x => 0 <= x < 256) b ->
            0 <= bwPollTimeout (status_of Q D dif 6 b) < 2 ^ 24 /\
            status_bytes (status_of Q D dif 6 b) = b).
  { intros b Hl Hb.
    destruct b as [|b0 [|b1 [|b2 [|b3 [|b4 [|b5 [|]]]]]]]; try discriminate.
    unfold status_of, status_bytes, truthy. rewrite Hquirk.
    cbn [Z.eqb Pos.eqb negb byte_at nth bStatus bwPollTimeout bState iString].
    repeat match goal with
           | H : Forall _ (_ :: _) |- _ => inversion H; subst; clear H
           end.
    rewrite le24_value by assumption.
    split; [lia|].
    assert (E1 : (b1 + 256 * b2 + 65536 * b3) mod 256 = b1).
    { replace (b1 + 256 * b2 + 65536 * b3) with (b1 + (b2 + 256 * b3) * 256) by lia.
      rewrite Z.mod_add by lia. apply Z.mod_small; lia. }
    assert (E2 : (b1 + 256 * b2 + 65536 * b3) / 256 = b2 + 256 * b3).
    { replace (b1 + 256 * b2 + 65536 * b3) with (b1 + (b2 + 256 * b3) * 256) by lia.
      rewrite Z.div_add by lia. rewrite Z.div_small by lia. lia. }
    assert (E3 : (b1 + 256 * b2 + 65536 * b3) / 65536 = b3).
    { replace (b1 + 256 * b2 + 65536 * b3) with (b1 + 256 * b2 + b3 * 65536) by lia.
      rewrite Z.div_add by lia. rewrite Z.div_small by lia. lia. }
    rewrite E1, E2, E3.
    replace (b2 + 256 * b3) with (b2 + b3 * 256) by lia.
    rewrite Z.mod_add by lia. rewrite Z.mod_small by lia. reflexivity. }
  destruct (Hdec buffer Hlen Hbytes) as [Hrange Hback].
  split; [exact Hrange|]. split; [exact Hback|].
  intros buffer' Hlen' Hbytes' Heq.
  destruct (Hdec buffer' Hlen' Hbytes') as [_ Hback'].
  rewrite <- Hback', <- Hback, Heq. reflexivity.
Qed.

Lemma status_of_round_trip_witness :
  status_bytes (status_of 1 5 Worlds.dev0 6 [0; 232; 3; 0; 2; 0]) = [0; 232; 3; 0; 2; 0] /\
  bwPollTimeout (status_of 1 5 Worlds.dev0 6 [0; 232; 3; 0; 2; 0]) = 1000.
Proof.
  split; [|reflexivity].
  refine (proj1 (proj2 (status_of_round_trip 1 5 Worlds.dev0 [0; 232; 3; 0; 2; 0]
                          eq_refl eq_refl _))).
  repeat constructor; lia.
Defined.

(** ** The diagnostic tables tell the codes apart *)

Lemma dfu_status_names_NoDup : NoDup dfu_status_names.
Proof.
  unfold dfu_status_names.
  repeat (constructor;
          [cbv [In]; intros H;
           repeat (destruct H as [H|H]; [discriminate|]); exact H|]).
  constructor.
Qed.

Lemma dfu_status_names_no_sentinel : ~ In "INVALID" dfu_status_names.
Proof.
  cbv [In dfu_status_names]. intros H.
  repeat (destruct H as [H|H]; [discriminate|]). exact H.
Qed.

Lemma dfu_status_to_string_entry (status : Z) :
  0 <= status <= 15 ->
  dfu_status_to_string status = nth_error dfu_status_names (Z.to_nat status).
Proof.
  intros Hs. unfold dfu_status_to_string, DFU_STATUS_errSTALLEDPKT, array_get.
  destruct (Z.gtb_spec status 15); [lia|].
  destruct (Z.ltb_spec status 0); [lia | reflexivity].
Qed.

(** X11: the tables tell the codes apart.  [dfu_status_to_string] gives
    sixteen different sentences for the codes 0 to 15, none of them the
    "INVALID" it gives above 15, and [dfu_state_to_string] gives different
    labels for different named states: from a label or a sentence the code
    can be recovered. *)
Theorem diagnostic_tables_injective :
  (forall a b, 0 <= a <= 15 -> 0 <= b <= 15 ->
     dfu_status_to_string a = dfu_status_to_string b -> a = b) /\
  (forall a, 0 <= a -> (dfu_status_to_string a = Some "INVALID" <-> 15 < a)) /\
  (forall a b, dfu_state_to_string a <> None ->
     dfu_state_to_string a = dfu_state_to_string b -> a = b).
Proof.
  split; [|split].
  - intros a b Ha Hb Heq.
    rewrite !dfu_status_to_string_entry in Heq by assumption.
    pose proof (proj1 (NoDup_nth_error dfu_status_names) dfu_status_names_NoDup
                  (Z.to_nat a) (Z.to_nat b)) as Hinj.
    assert (Hlt : (Z.to_nat a < List.length dfu_status_names)%nat).
    { change (List.length dfu_status_names) with 16%nat. lia. }
    specialize (Hinj Hlt Heq). lia.
  - intros a Ha. split.
    + intros Hs. destruct (Z.lt_ge_cases 15 a) as [|Hle]; [assumption|].
      exfalso. rewrite dfu_status_to_string_entry in Hs by lia.
      apply nth_error_In in Hs. exact (dfu_status_names_no_sentinel Hs).
    + intros Hgt. unfold dfu_status_to_string, DFU_STATUS_errSTALLEDPKT.
      destruct (Z.gtb_spec a 15); [reflexivity | lia].
  - intros a b Ha Heq.
    assert (Hb : dfu_state_to_string b <> None) by (rewrite <- Heq; exact Ha).
    apply dfu_state_to_string_defined in Ha, Hb.
    assert (Ha' : a = 0 \/ a = 1 \/ a = 2 \/ a = 3 \/ a = 4 \/ a = 5 \/ a = 6 \/ a = 7
                  \/ a = 8 \/ a = 9 \/ a = 10) by lia.
    assert (Hb' : b = 0 \/ b = 1 \/ b = 2 \/ b = 3 \/ b = 4 \/ b = 5 \/ b = 6 \/ b = 7
                  \/ b = 8 \/ b = 9 \/ b = 10) by lia.
    clear Ha Hb.
    repeat (destruct Ha' as [->|Ha']); try subst a;
      repeat (destruct Hb' as [->|Hb']); try subst b;
      first [reflexivity | discriminate Heq].
Qed.

(** ** [dfu_flash_filename] *)

(** X12: when the file cannot be opened, [dfu_flash_filename] returns
    [ENODEV], the code [dfu_flash] gives when no device is found, without
    calling [dfu_flash]: nothing is initialised and [*finished] is not
    written; [close] is still called, on the invalid descriptor.  When the
    file opens, the outcome and the state are those of [dfu_flash]: it returns
    what [dfu_flash] returns, which is never 0, after closing the descriptor;
    when [dfu_flash] terminates the process the descriptor has not been
    closed. *)
Theorem dfu_flash_filename_outcome
  (Q D : Z) (w : world) (open_rdonly : string -> Z) (filename : string)
  (mv mp : Z) (fuel : nat) :
  (open_rdonly filename <= -1 ->
   forall s,
     dfu_flash_filename Q D w open_rdonly filename fuel s =
       (Val ENODEV, s,
        [FsOpen filename (open_rdonly filename); FsClose (open_rdonly filename)])) /\
  (forall o s' evs,
     dfu_flash_filename Q D w open_rdonly filename fuel (boot mv mp) = (o, s', evs) ->
     (forall r, o = Val r ->
        r <> 0 /\
        evs = [FsOpen filename (open_rdonly filename); FsClose (open_rdonly filename)]) /\
     (forall c, o = Exit c -> evs = [FsOpen filename (open_rdonly filename)])) /\
  (-1 < open_rdonly filename ->
   forall s,
     fst (dfu_flash_filename Q D w open_rdonly filename fuel s) = dfu_flash Q D w fuel s /\
     (forall r, fst (dfu_flash Q D w fuel s) = Val r ->
        dfu_flash_filename Q D w open_rdonly filename fuel s =
          (Val r, snd (dfu_flash Q D w fuel s),
           [FsOpen filename (open_rdonly filename); FsClose (open_rdonly filename)]))).
Proof.
  unfold dfu_flash_filename. cbv zeta. split; [|split].
  - intros Hfd s. destruct (Z.gtb_spec (open_rdonly filename) (-1)); [lia | reflexivity].
  - intros o s' evs.
    destruct (Z.gtb_spec (open_rdonly filename) (-1)) as [Hfd|Hfd].
    + destruct (dfu_flash Q D w fuel (boot mv mp)) as [[r0|c0|] s0] eqn:Hrun;
        intros H; inversion H; subst; clear H.
      * split; [|intros c Hc; discriminate].
        intros r Hr. inversion Hr; subst r0.
        destruct (dfu_flash_results Q D w mv mp fuel _ _ Hrun r eq_refl)
          as (_ & Hnz & _).
        split; [assumption | reflexivity].
      * split; [intros r Hr; discriminate | intros c Hc; reflexivity].
      * split; intros ? Hx; discriminate.
    + intros H; inversion H; subst; clear H.
      split; [|intros c Hc; discriminate].
      intros r Hr. inversion Hr; subst. split; [discriminate | reflexivity].
  - intros Hfd s. destruct (Z.gtb_spec (open_rdonly filename) (-1)) as [_|Hle]; [|lia].
    destruct (dfu_flash Q D w fuel s) as [[r0|c0|] s0]; cbn [fst snd].
    + split; [reflexivity|]. intros r Hr. inversion Hr; subst. reflexivity.
    + split; [reflexivity|]. intros r Hr. discriminate.
    + split; [reflexivity|]. intros r Hr. discriminate.
Qed.

(** ** Teardown on every path *)

Lemma not_in_explicit_close (l : list event) :
  filter (fun e => match e with EvClose => true | _ => false end) l = [] ->
  ~ In EvClose l.
Proof.
  intros Hf Hin.
  assert (H : In EvClose (filter (fun e => match e with EvClose => true | _ => false end) l))
    by (apply filter_In; split; [exact Hin | reflexivity]).
  rewrite Hf in H. exact H.
Qed.

(** C4 (as amended): on every path on which [dfu_flash] returns to its
    caller, with success or with an error code, no device handle is open any
    more: a run that opened the device ends with [libusb_close] followed by
    [libusb_exit].  The fatal paths taken when opening the device, claiming
    the interface or selecting the alternate setting fails do not return:
    each of these failures makes [errx] terminate the process with
    [EX_IOERR], and [libusb_close] has not been called; after a failed claim
    or a failed selection the handle that was opened is still open. *)
Theorem dfu_flash_closes_when_it_returns
  (Q D : Z) (w : world) (mv mp : Z) (fuel : nat) (o : outcome Z) (s' : state)
  (Hrun : dfu_flash Q D w fuel (boot mv mp) = (o, s')) :
  (forall r, o = Val r ->
     handle_open s' = false /\
     (forall ro h, In (EvOpen ro h) (log s') ->
        exists l, log s' = EvLibusbExit :: EvClose :: l)) /\
  (forall c, o = Exit c ->
     c = EX_IOERR /\ ~ In EvClose (log s') /\
     exists ro h, In (EvOpen ro h) (log s')) /\
  (forall d,
     libusb_init w = 0 -> probed w mv mp = [d] ->
     id_mismatch (dfu_load_file w) d = false ->
     (truthy (fst (libusb_open w d)) || negb (snd (libusb_open w d)) = true ->
      o = Exit EX_IOERR /\ ~ In EvClose (log s')) /\
     (libusb_open w d = (0, true) ->
      libusb_claim_interface w d < 0 \/ libusb_set_interface_alt_setting w d < 0 ->
      o = Exit EX_IOERR /\ handle_open s' = true /\ ~ In EvClose (log s'))).
Proof.
  revert o s' Hrun. by_flash_paths.
  - intros Hinit. split; [|split].
    + intros r _. split; [reflexivity|].
      intros ro h Hin. cbn in Hin. intuition discriminate.
    + intros c Hc. discriminate.
    + intros d H0. rewrite H0 in Hinit. discriminate.
  - intros _ Hfound. split; [|split].
    + intros r _. split; [reflexivity|].
      intros ro h Hin. cbn in Hin. intuition discriminate.
    + intros c Hc. discriminate.
    + intros d _ Hd. congruence.
  - intros d0 d' l _ Hfound. split; [|split].
    + intros r _. split; [reflexivity|].
      intros ro h Hin. cbn in Hin. intuition discriminate.
    + intros c Hc. discriminate.
    + intros d _ Hd. congruence.
  - intros d0 _ Hfound Hid. split; [|split].
    + intros r _. split; [reflexivity|].
      intros ro h Hin. cbn in Hin. intuition discriminate.
    + intros c Hc. discriminate.
    + intros d _ Hd Hid'. rewrite Hfound in Hd. inversion Hd; subst d0. congruence.
  - intros d0 _ Hfound _ Hfail.
    assert (Hnc : ~ In EvClose
                    (log (logged (EvErrx EX_IOERR "Cannot open device: %s"
                                    [fst (libusb_open w d0)])
                                 (opened w d0 (probed_state w mv mp)))))
      by (apply not_in_explicit_close; reflexivity).
    split; [|split].
    + intros r Hr. discriminate.
    + intros c Hc. inversion Hc; subst c. split; [reflexivity|]. split; [exact Hnc|].
      do 2 eexists. cbn. right. left. reflexivity.
    + intros d _ Hd _. rewrite Hfound in Hd. inversion Hd; subst d0. split.
      * intros _. split; [reflexivity | exact Hnc].
      * intros Hok. rewrite Hok in Hfail. discriminate.
  - intros d0 _ Hfound _ Hopen Hclaim.
    assert (Hnc : ~ In EvClose
                    (log (logged (EvErrx EX_IOERR "Cannot claim interface - %s"
                                    [libusb_claim_interface w d0])
                            (logged (EvClaim (intf d0) (libusb_claim_interface w d0))
                                    (opened w d0 (probed_state w mv mp))))))
      by (apply not_in_explicit_close; reflexivity).
    split; [|split].
    + intros r Hr. discriminate.
    + intros c Hc. inversion Hc; subst c. split; [reflexivity|]. split; [exact Hnc|].
      do 2 eexists. cbn. do 2 right. left. reflexivity.
    + intros d _ Hd _. rewrite Hfound in Hd. inversion Hd; subst d0. split.
      * intros Hfail. rewrite Hopen in Hfail. discriminate.
      * intros _ _. split; [reflexivity|]. split; [|exact Hnc].
        cbn. rewrite Hopen. reflexivity.
  - intros d0 _ Hfound _ Hopen Hclaim Halt.
    assert (Hnc : ~ In EvClose
                    (log (logged (EvErrx EX_IOERR "Cannot set alternate interface: %s"
                                    [libusb_set_interface_alt_setting w d0])
                            (logged (EvSetAlt (intf d0) (altsetting d0)
                                       (libusb_set_interface_alt_setting w d0))
                               (logged (EvClaim (intf d0) (libusb_claim_interface w d0))
                                       (opened w d0 (probed_state w mv mp)))))))
      by (apply not_in_explicit_close; reflexivity).
    split; [|split].
    + intros r Hr. discriminate.
    + intros c Hc. inversion Hc; subst c. split; [reflexivity|]. split; [exact Hnc|].
      do 2 eexists. cbn. do 3 right. left. reflexivity.
    + intros d _ Hd _. rewrite Hfound in Hd. inversion Hd; subst d0. split.
      * intros Hfail. rewrite Hopen in Hfail. discriminate.
      * intros _ _. split; [reflexivity|]. split; [|exact Hnc].
        cbn. rewrite Hopen. reflexivity.
  - intros d0 _ Hfound _ Hopen Hclaim Halt.
    assert (Hthird : forall (o : outcome Z) (s' : state) (d : dfu_if),
              libusb_init w = 0 -> probed w mv mp = [d] ->
              id_mismatch (dfu_load_file w) d = false ->
              (truthy (fst (libusb_open w d)) || negb (snd (libusb_open w d)) = true ->
               o = Exit EX_IOERR /\ ~ In EvClose (log s')) /\
              (libusb_open w d = (0, true) ->
               libusb_claim_interface w d < 0 \/ libusb_set_interface_alt_setting w d < 0 ->
               o = Exit EX_IOERR /\ handle_open s' = true /\ ~ In EvClose (log s'))).
    { intros o s' d _ Hd _. rewrite Hfound in Hd. inversion Hd; subst d0. split.
      - intros Hfail. rewrite Hopen in Hfail. discriminate.
      - intros _ [H|H]; lia. }
    by_device_paths.
    + intros st s1 _ _ r _. split; [|split].
      * intros r0 _.
        destruct (delivered_frame w d0 r (recovered Q D w d0 st s1)) as (_ & _ & Hh & _).
        split; [exact Hh|]. intros _ _ _. rewrite delivered_log. eexists. reflexivity.
      * intros c Hc. discriminate.
      * apply Hthird.
    + intros s1 _. split; [|split].
      * intros r Hr. discriminate.
      * intros c Hc. discriminate.
      * apply Hthird.
Qed.

Lemma dfu_flash_closes_when_it_returns_witness :
  fst (dfu_flash 1 5 (Worlds.plugged Worlds.dev0 (Worlds.recovering 1)) 2 (boot (-1) (-1)))
    = Val 6 /\
  handle_open
    (snd (dfu_flash 1 5 (Worlds.plugged Worlds.dev0 (Worlds.recovering 1)) 2
                    (boot (-1) (-1)))) = false.
Proof.
  split; [reflexivity|].
  exact (proj1 (proj1 (dfu_flash_closes_when_it_returns 1 5
                         (Worlds.plugged Worlds.dev0 (Worlds.recovering 1)) (-1) (-1) 2
                         _ _ (surjective_pairing _))
                      6 eq_refl)).
Defined.
